(** * Financial Data Accuracy Dashboard: the reconciliation and alerting core

  A shallow embedding of [src/alert_system.py] (class [AlertSystem]) and
  [src/data_fetcher.py] (class [DataFetcher]), and the properties of the
  specification that concern them.

  Conventions of the embedding.
  - A [datetime] is an integer number of microseconds (the resolution of
    Python's [datetime]); a [timedelta] is a difference of two of them.
    Every reading of [datetime.now()] is an input of the function that
    reads it.
  - A Python [float] that holds a price or a percentage is the rational
    number ([Q]) that it denotes.  Where the source decides by comparing
    floats ([_cross_validate_prices]), the subtractions, quotients, means
    and constants are those of binary64, rounded to nearest ([Binary64])
    and with the infinities and [NaN] of IEEE 754; the values that the source only stores (the discrepancy of a row, its
    moving average) are computed exactly.  The alert threshold is a
    rational, compared as it is.
  - A [dict] from symbols to datetimes is a [gmap string Z].
  - A [DataFrame] is the list of its rows, oldest first; a column is the
    list of one field of the rows.  pandas' missing value ([None], [NaN])
    is [None].
  - The outside world (the two price providers, the SMTP server, the
    clock) is an explicit argument of each method that consults it. *)

From Stdlib Require Import ZArith QArith Qabs Qminmax Qround Lia Lqa Sorted.
From stdpp Require Import base numbers option list gmap strings.
From Stdlib Require Floats.PrimFloat Floats.FloatOps Floats.SpecFloat.

Local Open Scope Z_scope.

(** ** Time *)

Module Time.

Definition datetime := Z.
Definition timedelta := Z.

Definition microseconds (n : Z) : timedelta := n.
Definition seconds (n : Z) : timedelta := n * 1000000.
Definition minutes (n : Z) : timedelta := n * 60000000.
Definition hours (n : Z) : timedelta := n * 3600000000.

End Time.

(** ** [src/alert_system.py] *)

Module AlertSystem.
Import Time.

(** A row of [self.alert_history]. *)
Record AlertRecord := {
  Timestamp : datetime;
  Symbol : string;
  Discrepancy : Q;
  Alert_Sent : bool;
  Alert_Type : string
}.

(** The fields of [AlertSystem] that the admission logic reads or
    writes.  The e-mail credentials and recipients only reach the
    message that is handed to SMTP. *)
Record t := {
  threshold : Q;
  alert_history : list AlertRecord;
  last_alert_time : gmap string datetime;
  alert_cooldown : timedelta
}.

(** [__init__], given the value of [DISCREPANCY_THRESHOLD]. *)
Definition init (threshold : Q) : t :=
  {| threshold := threshold;
     alert_history := [];
     last_alert_time := ∅;
     alert_cooldown := minutes 5 |}.

(** The default of [DISCREPANCY_THRESHOLD]. *)
Definition default_threshold : Q := 0.5%Q.

(** The rows of the last hour for [symbol]:
    [(Symbol == symbol) & (Timestamp > current_time - timedelta(hours=1))]. *)
Definition recent_alerts (self : t) (current_time : datetime) (symbol : string)
  : list AlertRecord :=
  filter (λ r, Symbol r = symbol ∧ current_time - hours 1 < Timestamp r)
         (alert_history self).

(** [_validate_alert_conditions]; [current_time] is its reading of the
    clock. *)
Definition _validate_alert_conditions (self : t) (current_time : datetime)
    (symbol : string) (price_difference : Q) : bool * string :=
  if match last_alert_time self !! symbol with
     | Some last => bool_decide (current_time - last < alert_cooldown self)
     | None => false
     end
  then (false, "cooldown")
  else if Qle_bool (Qabs price_difference) (threshold self)
  then (false, "below_threshold")
  else if bool_decide (5 ≤ length (recent_alerts self current_time symbol))%nat
  then (false, "rate_limit")
  else (true, "valid").

(** [should_send_alert]. *)
Definition should_send_alert (self : t) (price_difference : Q) : bool :=
  negb (Qle_bool (Qabs price_difference) (threshold self)).

(** What one call of [send_alert] finds outside: the clock as read by
    [_validate_alert_conditions], the clock as read by [send_alert]
    itself once validation has passed, and whether the [try] block
    (building the message and the SMTP session) runs to its end or
    raises. *)
Record env := {
  clock_validate : datetime;
  clock_send : datetime;
  smtp_delivers : bool
}.

(** [send_alert]: the state after the call and the returned [bool]. *)
Definition send_alert (self : t) (e : env) (symbol : string)
    (alpha_price yahoo_price difference_percentage : Q) : t * bool :=
  let '(should_alert, reason) :=
    _validate_alert_conditions self (clock_validate e) symbol difference_percentage in
  if negb should_alert then (self, false)
  else
    let current_time := clock_send e in
    if smtp_delivers e then
      ({| threshold := threshold self;
          alert_history :=
            alert_history self ++
              [{| Timestamp := current_time;
                  Symbol := symbol;
                  Discrepancy := difference_percentage;
                  Alert_Sent := true;
                  Alert_Type := "threshold_exceeded" |}];
          last_alert_time := <[symbol := current_time]> (last_alert_time self);
          alert_cooldown := alert_cooldown self |},
       true)
    else (self, false).

(** A call of [send_alert] together with what it finds outside, and the
    effect of a sequence of calls on the state. *)
Record call := {
  c_env : env;
  c_symbol : string;
  c_alpha_price : Q;
  c_yahoo_price : Q;
  c_difference : Q
}.

Definition step (self : t) (c : call) : t :=
  fst (send_alert self (c_env c) (c_symbol c)
         (c_alpha_price c) (c_yahoo_price c) (c_difference c)).

Definition run (self : t) (calls : list call) : t := foldl step self calls.

Definition returns (self : t) (calls : list call) : list bool :=
  snd (foldl (λ acc c,
                let r := send_alert (fst acc) (c_env c) (c_symbol c)
                           (c_alpha_price c) (c_yahoo_price c) (c_difference c) in
                (fst r, snd acc ++ [snd r]))
             (self, []) calls).

(** Within one call the clock does not run backwards between the two
    readings. *)
Definition clock_sane (c : call) : Prop :=
  clock_validate (c_env c) ≤ clock_send (c_env c).

(** No two rows of the history for one symbol are closer than the
    cooldown. *)
Definition cooldown_apart (self : t) : Prop :=
  ∀ (i j : nat) (r1 r2 : AlertRecord),
    i ≠ j →
    alert_history self !! i = Some r1 →
    alert_history self !! j = Some r2 →
    Symbol r1 = Symbol r2 →
    alert_cooldown self ≤ Z.abs (Timestamp r2 - Timestamp r1).

(** The symbol has an entry in [last_alert_time] that is less than the
    cooldown old at [now]. *)
Definition in_cooldown (self : t) (now : datetime) (symbol : string) : Prop :=
  ∃ last, last_alert_time self !! symbol = Some last
          ∧ now - last < alert_cooldown self.

(** The invariant behind the cooldown: the cooldown is not negative, the
    entry of a symbol in [last_alert_time] is not older than any of its
    rows, and the rows of a symbol are a cooldown apart. *)
Definition ledger_ok (self : t) : Prop :=
  0 ≤ alert_cooldown self
  ∧ (∀ r, r ∈ alert_history self →
       ∃ last, last_alert_time self !! Symbol r = Some last ∧ Timestamp r ≤ last)
  ∧ cooldown_apart self.

(** The end-to-end example of the specification: symbol XYZ, source A at
    100.00, source B at 100.80, hence a discrepancy of 0.80 percent; the
    call is made [minute] minutes after the start and the clock is read
    twice at that instant. *)
Definition xyz_call (minute : Z) (delivers : bool) : call :=
  {| c_env := {| clock_validate := minutes minute;
                 clock_send := minutes minute;
                 smtp_delivers := delivers |};
     c_symbol := "XYZ";
     c_alpha_price := 100;
     c_yahoo_price := 100.8;
     c_difference := 0.8 |}.

(** A call for XYZ whose admission check reads the clock at six minutes
    and whose row is stamped, the clock having been set back in between,
    at one minute. *)
Definition clock_set_back_call : call :=
  {| c_env := {| clock_validate := minutes 6;
                 clock_send := minutes 1;
                 smtp_delivers := true |};
     c_symbol := "XYZ";
     c_alpha_price := 100;
     c_yahoo_price := 100.8;
     c_difference := 0.8 |}.

(** Five alerts for XYZ, one every ten minutes from the start. *)
Definition five_xyz_alerts : t :=
  run (init default_threshold)
      [xyz_call 0 true; xyz_call 10 true; xyz_call 20 true;
       xyz_call 30 true; xyz_call 40 true].

End AlertSystem.

(** ** The pandas operations that [src/data_fetcher.py] applies to its
    history *)

Module Pandas.
Local Open Scope Q_scope.

(** [df.tail(n)]: the last [n] rows, all of them when there are fewer. *)
Definition tail {A} (n : nat) (rows : list A) : list A :=
  drop (length rows - n) rows.

(** [s.iloc[-1]]: the last entry; [None] stands for the [IndexError]
    that an empty series raises. *)
Definition iloc_last {A} (s : list A) : option A := last s.

(** [df.empty]. *)
Definition empty {A} (rows : list A) : bool :=
  match rows with
  | [] => true
  | _ => false
  end.

(** [s.sum()] and [s.count()]. *)
Definition series_sum (s : list Q) : Q := foldr Qplus 0 s.

Definition series_count (s : list Q) : Q := inject_Z (Z.of_nat (length s)).

(** [s.mean()]; the mean of an empty series is [NaN]. *)
Definition series_mean (s : list Q) : option Q :=
  match s with
  | [] => None
  | _ => Some (series_sum s / series_count s)
  end.

(** [s.rolling(window, min_periods).mean()]: entry [i] is the mean of the
    last [window] entries up to and including [i], and is missing when
    fewer than [min_periods] entries are in that window. *)
Definition rolling_mean (window min_periods : nat) (s : list Q) : list (option Q) :=
  (λ i, let w := tail window (take (S i) s) in
        if (length w <? min_periods)%nat then None else series_mean w)
    <$> seq 0 (length s).

(** [s.is_monotonic_increasing]: every entry is at most the next one. *)
Fixpoint is_monotonic_increasing (s : list Q) : bool :=
  match s with
  | x :: rest =>
      match rest with
      | y :: _ => Qle_bool x y && is_monotonic_increasing rest
      | [] => true
      end
  | [] => true
  end.

(** [s.is_monotonic_decreasing]: every entry is at least the next one. *)
Fixpoint is_monotonic_decreasing (s : list Q) : bool :=
  match s with
  | x :: rest =>
      match rest with
      | y :: _ => Qle_bool y x && is_monotonic_decreasing rest
      | [] => true
      end
  | [] => true
  end.

Section Std.
(** The square root of numpy, which has no rational counterpart, is a
    parameter of everything that computes a standard deviation. *)
Variable np_sqrt : Q → Q.

(** [s.std()], with pandas' default [ddof=1]; [NaN] for fewer than two
    entries. *)
Definition series_std (s : list Q) : option Q :=
  if (length s <? 2)%nat then None
  else
    let m := series_sum s / series_count s in
    Some (np_sqrt (series_sum ((λ x, (x - m) * (x - m)) <$> s)
                   / (series_count s - 1))).
End Std.

(** A series never goes down, respectively never goes up. *)
Definition nondecreasing (s : list Q) : Prop :=
  ∀ (i j : nat) (x y : Q), (i ≤ j)%nat → s !! i = Some x → s !! j = Some y → x <= y.

Definition nonincreasing (s : list Q) : Prop :=
  ∀ (i j : nat) (x y : Q), (i ≤ j)%nat → s !! i = Some x → s !! j = Some y → y <= x.

(** A rational stand-in for the square root, for running examples: six
    steps of Newton's iteration. *)
Fixpoint newton (steps : nat) (a x : Q) : Q :=
  match steps with
  | O => x
  | S steps => newton steps a (Qred ((x + a / x) / 2))
  end.

Definition newton_sqrt (a : Q) : Q :=
  if Qle_bool a 0 then 0 else newton 6 a (Qmax a 1).

End Pandas.

(** ** Binary64 arithmetic on the rationals that floats denote *)

Module Binary64.
Local Open Scope Q_scope.

(** [2^k], for an exponent of either sign. *)
Definition pow2 (k : Z) : Q := Qpower 2 k.

(** The exponent [e] with [2^e <= a < 2^(e+1)], for a positive [a]. *)
Definition floor_log2 (a : Q) : Z :=
  let e := (Z.log2 (Qnum a) - Z.log2 (Zpos (Qden a)))%Z in
  if Qle_bool (pow2 e) a then e else (e - 1)%Z.

(** The nearest integer, the even one of two that are equally near. *)
Definition round_half_even (x : Q) : Z :=
  let f := Qfloor x in
  match Qcompare (x - inject_Z f) (1 # 2) with
  | Lt => f
  | Gt => (f + 1)%Z
  | Eq => if Z.even f then f else (f + 1)%Z
  end.

(** The binary64 value nearest to [q], ties to even: 53 bits of
    significand, and the fixed spacing [2^(-1074)] below [2^(-1022)].
    The exponent has no upper bound here: what comes out beyond
    [max_float] is an infinity for the operations on floats. *)
Definition round64 (q : Q) : Q :=
  if Qeq_bool q 0 then 0
  else
    let a := Qabs q in
    let e := Z.max (floor_log2 a) (-1022) in
    let ulp := pow2 (e - 52) in
    let n := round_half_even (a / ulp) in
    Qred ((if Qle_bool 0 q then 1 else -1) * inject_Z n * ulp).

(** The largest finite binary64 value, [(2^53 - 1) * 2^971]. *)
Definition max_float : Q := inject_Z ((2 ^ 53 - 1) * 2 ^ 971).

(** A positive integer as an odd number times a power of two. *)
Fixpoint odd_part (p : positive) : positive * Z :=
  match p with
  | xO p' => let '(m, j) := odd_part p' in (m, (j + 1)%Z)
  | _ => (p, 0%Z)
  end.

(** The binary64 arithmetic of the kernel, to compare with: sign,
    significand and exponent of a rational that is a binary64 value, and
    the rational of a finite float of the kernel. *)
Definition spec_float_of (q : Q) : SpecFloat.spec_float :=
  let exponent (n : positive) :=
    (snd (odd_part n) - Z.log2 (Zpos (Qden (Qred q))))%Z in
  match Qnum (Qred q) with
  | Z0 => SpecFloat.S754_zero false
  | Zpos n => SpecFloat.S754_finite false (fst (odd_part n)) (exponent n)
  | Zneg n => SpecFloat.S754_finite true (fst (odd_part n)) (exponent n)
  end.

Definition rational_of (negative : bool) (m : positive) (e : Z) : Q :=
  Qred ((if negative then -1 else 1) * inject_Z (Zpos m) * pow2 e).

End Binary64.

(** ** [src/data_fetcher.py] *)

Module DataFetcher.
Import Time Pandas Binary64.
Local Open Scope Q_scope.

(** A Python [float] as a provider can deliver it. *)
Inductive pyfloat :=
  | Finite (q : Q)
  | Infinity (negative : bool)
  | NaN.

(** What may reach the price validator. *)
Inductive raw_value :=
  | Missing
  | NonNumeric (text : string)
  | Number (x : pyfloat).

(** The number behind an accepted reading. *)
Definition as_price (x : pyfloat) : option Q :=
  match x with
  | Finite q => Some q
  | _ => None
  end.

(** The float nearest to a rational: an infinity beyond the largest
    finite float. *)
Definition to_float (q : Q) : pyfloat :=
  let r := round64 q in
  if Qle_bool (Qabs r) max_float then Finite r
  else Infinity (negb (Qle_bool 0 q)).

(** The sign of a finite float; a zero stands for the positive zero. *)
Definition sign_bit (q : Q) : bool := negb (Qle_bool 0 q).

(** [abs(x)], [x + y], [x - y] and [x / y] on float64 as numpy computes
    them: the exact result rounded, with the infinities and [NaN] of
    IEEE 754; a finite number divided by zero is an infinity and zero
    divided by zero is [NaN]. *)
Definition float_abs (x : pyfloat) : pyfloat :=
  match x with
  | Finite q => Finite (Qabs q)
  | Infinity _ => Infinity false
  | NaN => NaN
  end.

Definition float_add (x y : pyfloat) : pyfloat :=
  match x, y with
  | NaN, _ | _, NaN => NaN
  | Finite a, Finite b => to_float (a + b)
  | Finite _, Infinity negative => Infinity negative
  | Infinity negative, Finite _ => Infinity negative
  | Infinity negative, Infinity negative' =>
      if eqb negative negative' then Infinity negative else NaN
  end.

Definition float_sub (x y : pyfloat) : pyfloat :=
  match x, y with
  | NaN, _ | _, NaN => NaN
  | Finite a, Finite b => to_float (a - b)
  | Finite _, Infinity negative => Infinity (negb negative)
  | Infinity negative, Finite _ => Infinity negative
  | Infinity negative, Infinity negative' =>
      if eqb negative negative' then NaN else Infinity negative
  end.

Definition float_div (x y : pyfloat) : pyfloat :=
  match x, y with
  | NaN, _ | _, NaN => NaN
  | Finite a, Finite b =>
      if Qeq_bool b 0
      then if Qeq_bool a 0 then NaN else Infinity (sign_bit a)
      else to_float (a / b)
  | Finite _, Infinity _ => Finite 0
  | Infinity negative, Finite b => Infinity (xorb negative (sign_bit b))
  | Infinity _, Infinity _ => NaN
  end.

(** [s.mean()] of a column of fewer than eight floats, as in the frames
    of at most five rows of [_cross_validate_prices]: the entries are
    added one at a time from zero and the sum is divided by their number;
    [NaN] for no entry. *)
Definition float_mean (s : list Q) : pyfloat :=
  float_div (foldl float_add (Finite 0) (Finite <$> s))
            (Finite (inject_Z (Z.of_nat (length s)))).

(** The floats of the kernel, to compare with. *)
Definition kernel_float (x : pyfloat) : PrimFloat.float :=
  FloatOps.SF2Prim
    match x with
    | Finite q => spec_float_of q
    | Infinity negative => SpecFloat.S754_infinity negative
    | NaN => SpecFloat.S754_nan
    end.

Definition kernel_value (f : PrimFloat.float) : pyfloat :=
  match FloatOps.Prim2SF f with
  | SpecFloat.S754_zero _ => Finite 0
  | SpecFloat.S754_finite negative m e => Finite (rational_of negative m e)
  | SpecFloat.S754_infinity negative => Infinity negative
  | SpecFloat.S754_nan => NaN
  end.

(** The mean of a column in the kernel's floats. *)
Definition kernel_mean (s : list Q) : PrimFloat.float :=
  PrimFloat.div
    (foldl PrimFloat.add (kernel_float (Finite 0)) (kernel_float ∘ Finite <$> s))
    (kernel_float (Finite (inject_Z (Z.of_nat (length s))))).

(** Modelled from the spec: [DataFetcher._validate_price], which
    [get_alpha_vantage_data] and [get_yahoo_finance_data] call and which
    no file of the sources defines.  Section 4.1 of the specification:
    "Rejects when raw_value is missing, non-numeric, zero, negative, or
    non-finite"; the result is used as a condition by both callers. *)
Definition _validate_price (raw_value : raw_value) (source_label symbol : string)
  : bool :=
  match raw_value with
  | Number (Finite q) => negb (Qle_bool q 0)
  | _ => false
  end.

(** A row of [self.price_history]. *)
Record ComparisonRecord := {
  Timestamp : datetime;
  Symbol : string;
  Alpha_Vantage_Price : Q;
  Yahoo_Finance_Price : Q;
  Difference : Q;
  Moving_Average : option Q;
  Volatility : option Q
}.

Record t := {
  price_history : list ComparisonRecord;
  last_fetch_time : gmap string datetime
}.

(** [__init__] (with the API key present). *)
Definition init : t :=
  {| price_history := []; last_fetch_time := ∅ |}.

(** [self.price_history[self.price_history['Symbol'] == symbol]]. *)
Definition symbol_rows (self : t) (symbol : string) : list ComparisonRecord :=
  filter (λ r, Symbol r = symbol) (price_history self).

(** The dictionary that [_calculate_analytics] returns. *)
Record analytics := {
  moving_average : option Q;
  volatility : option Q;
  trend : option string
}.

Definition no_analytics : analytics :=
  {| moving_average := None; volatility := None; trend := None |}.

Section Analytics.
Variable np_sqrt : Q → Q.

(** [_calculate_analytics].  The rolling mean is taken of a series of at
    least two entries, so [.iloc[-1]] finds its last entry. *)
Definition _calculate_analytics (self : t) (symbol : string) : analytics :=
  if (length (price_history self) <? 2)%nat then no_analytics
  else
    let symbol_data := symbol_rows self symbol in
    if (length symbol_data <? 2)%nat then no_analytics
    else
      let differences := Difference <$> symbol_data in
      let moving_avg := mjoin (iloc_last (rolling_mean 5 1 differences)) in
      let volatility := series_std np_sqrt differences in
      let recent_diffs := tail 5 differences in
      let trend :=
        if is_monotonic_increasing recent_diffs then "increasing"
        else if is_monotonic_decreasing recent_diffs then "decreasing"
        else "fluctuating" in
      {| moving_average := moving_avg;
         volatility := volatility;
         trend := Some trend |}.

End Analytics.

(** [a > b] on floats. *)
Definition Qgt_bool (a b : Q) : bool := negb (Qle_bool a b).

(** [x > limit] for a float [x] and a finite [limit]; [NaN] is above
    nothing. *)
Definition float_gt (x : pyfloat) (limit : Q) : bool :=
  match x with
  | Finite q => Qgt_bool q limit
  | Infinity negative => negb negative
  | NaN => false
  end.

(** [_cross_validate_prices], in binary64: the literals [0.2] and [0.1]
    are the floats nearest to them, and the mean of a column can be an
    infinity. *)
Definition _cross_validate_prices (self : t) (alpha_price yahoo_price : Q)
    (symbol : string) : bool :=
  if float_gt (float_div (float_abs (float_sub (Finite alpha_price)
                                               (Finite yahoo_price)))
                         (Finite (Qmin alpha_price yahoo_price)))
              (round64 0.2)
  then
    if negb (empty (price_history self)) then
      let recent_data := tail 5 (symbol_rows self symbol) in
      if negb (empty recent_data) then
        let avg_alpha := float_mean (Alpha_Vantage_Price <$> recent_data) in
        let avg_yahoo := float_mean (Yahoo_Finance_Price <$> recent_data) in
        if float_gt (float_div (float_abs (float_sub (Finite alpha_price) avg_alpha))
                               avg_alpha)
                    (round64 0.1)
           && float_gt (float_div (float_abs (float_sub (Finite yahoo_price) avg_yahoo))
                                  avg_yahoo)
                       (round64 0.1)
        then false
        else if float_gt (float_div (float_abs (float_sub (Finite alpha_price) avg_alpha))
                                    avg_alpha)
                         (round64 0.1)
        then false
        else if float_gt (float_div (float_abs (float_sub (Finite yahoo_price) avg_yahoo))
                                    avg_yahoo)
                         (round64 0.1)
        then false
        else true
      else true
    else true
  else true.

(** What a provider answers to one request: the client raises, or the
    payload is empty, or it carries a number. *)
Inductive reply :=
  | Raises
  | Empty
  | Quote (price : pyfloat).

(** The requests that leave the process. *)
Inductive api_call :=
  | AlphaVantage_quote (symbol : string)
  | YahooFinance_history (symbol : string).

(** [get_alpha_vantage_data]: the state after the call, the returned
    price and the requests made.  [current_time] is the reading of the
    clock, [provider] the answer that a request would get;
    [total_seconds() < 12] is taken on the difference in microseconds.  Every
    exception inside the method is caught there and turned into [None]:
    the [IndexError] of [.iloc[-1]] on an empty history, the [KeyError]
    of an empty payload, whatever the client raises. *)
Definition get_alpha_vantage_data (self : t) (current_time : datetime)
    (provider : reply) (symbol : string) : t * option Q * list api_call :=
  if match last_fetch_time self !! symbol with
     | Some last => bool_decide (current_time - last < seconds 12)%Z
     | None => false
     end
  then (self, Alpha_Vantage_Price <$> iloc_last (price_history self), [])
  else
    match provider with
    | Quote price =>
        if _validate_price (Number price) "Alpha Vantage" symbol
        then ({| price_history := price_history self;
                 last_fetch_time := <[symbol := current_time]> (last_fetch_time self) |},
              as_price price, [AlphaVantage_quote symbol])
        else (self, None, [AlphaVantage_quote symbol])
    | _ => (self, None, [AlphaVantage_quote symbol])
    end.

(** [get_yahoo_finance_data]: it reads and writes no field of [self]. *)
Definition get_yahoo_finance_data (self : t) (provider : reply) (symbol : string)
  : t * option Q * list api_call :=
  match provider with
  | Quote price =>
      if _validate_price (Number price) "Yahoo Finance" symbol
      then (self, as_price price, [YahooFinance_history symbol])
      else (self, None, [YahooFinance_history symbol])
  | _ => (self, None, [YahooFinance_history symbol])
  end.

(** What one cycle finds outside. *)
Record env := {
  clock_fetch : datetime;
  clock_record : datetime;
  alpha_vantage : reply;
  yahoo_finance : reply
}.

(** A method returns a value or raises. *)
Inductive outcome (A : Type) :=
  | Returned (value : A)
  | Raised (exception : string).
Arguments Returned {A} value.
Arguments Raised {A} exception.

Definition price_comparison : Type := option Q * option Q * option Q.

(** [self.price_history] after [pd.concat] and the cut to 1000 rows. *)
Definition store (history : list ComparisonRecord) (new_data : ComparisonRecord)
  : list ComparisonRecord :=
  let history := history ++ [new_data] in
  if (1000 <? length history)%nat then tail 1000 history else history.

Section Cycle.
Variable np_sqrt : Q → Q.

(** [get_price_comparison].  The last statement before the [return]
    formats [analytics["moving_average"]] and [analytics["volatility"]]
    with [:.2f], which raises [TypeError] on [None]; the row has been
    stored by then and nothing catches the exception inside the method. *)
Definition get_price_comparison (self : t) (e : env) (symbol : string)
  : t * outcome price_comparison * list api_call :=
  let '(self, alpha_price, calls_a) :=
    get_alpha_vantage_data self (clock_fetch e) (alpha_vantage e) symbol in
  let '(self, yahoo_price, calls_y) :=
    get_yahoo_finance_data self (yahoo_finance e) symbol in
  let calls := calls_a ++ calls_y in
  match alpha_price, yahoo_price with
  | Some alpha_price, Some yahoo_price =>
      if negb (_cross_validate_prices self alpha_price yahoo_price symbol)
      then (self, Returned (None, None, None), calls)
      else
        let price_diff_percentage :=
          Qabs (alpha_price - yahoo_price) / alpha_price * 100 in
        let analytics := _calculate_analytics np_sqrt self symbol in
        let new_data :=
          {| Timestamp := clock_record e;
             Symbol := symbol;
             Alpha_Vantage_Price := alpha_price;
             Yahoo_Finance_Price := yahoo_price;
             Difference := price_diff_percentage;
             Moving_Average := moving_average analytics;
             Volatility := volatility analytics |} in
        let self :=
          {| price_history := store (price_history self) new_data;
             last_fetch_time := last_fetch_time self |} in
        match moving_average analytics, volatility analytics with
        | Some _, Some _ =>
            (self,
             Returned (Some alpha_price, Some yahoo_price, Some price_diff_percentage),
             calls)
        | _, _ => (self, Raised "TypeError", calls)
        end
  | _, _ => (self, Returned (None, None, None), calls)
  end.

(** A sequence of cycles, each with its symbol. *)
Definition cycle (self : t) (c : env * string) : t :=
  (get_price_comparison self (fst c) (snd c)).1.1.

Definition run (self : t) (cycles : list (env * string)) : t :=
  foldl cycle self cycles.

End Cycle.

(** ** The vocabulary of the specification *)

(** Section 4.1: the reasons for which a raw value is rejected. *)
Definition is_missing (raw : raw_value) : Prop := raw = Missing.

Definition is_non_numeric (raw : raw_value) : Prop := ∃ text, raw = NonNumeric text.

Definition is_zero (raw : raw_value) : Prop := ∃ q, raw = Number (Finite q) ∧ q == 0.

Definition is_negative (raw : raw_value) : Prop :=
  (∃ q, raw = Number (Finite q) ∧ q < 0) ∨ raw = Number (Infinity true).

Definition is_non_finite (raw : raw_value) : Prop :=
  (∃ negative, raw = Number (Infinity negative)) ∨ raw = Number NaN.

(** Section 4.2: the relative spread of two prices and the relative
    deviation of a price from an average, as the floats that the code
    computes, and what it is for one of them to exceed a limit written as
    a decimal. *)
Definition relative_spread (price_A price_B : Q) : pyfloat :=
  float_div (float_abs (float_sub (Finite price_A) (Finite price_B)))
            (Finite (Qmin price_A price_B)).

Definition relative_deviation (price : Q) (avg : pyfloat) : pyfloat :=
  float_div (float_abs (float_sub (Finite price) avg)) avg.

Definition exceeds (x : pyfloat) (limit : Q) : Prop :=
  float_gt x (round64 limit) = true.

(** The symbol was fetched less than twelve seconds before [now]. *)
Definition fetched_recently (self : t) (now : datetime) (symbol : string) : Prop :=
  ∃ last, last_fetch_time self !! symbol = Some last ∧ (now - last < seconds 12)%Z.

(** A cycle that stores a row is one that does not return
    [(None, None, None)]. *)
Definition null_comparison : outcome price_comparison := Returned (None, None, None).

(** ** Running examples *)

(** Both providers answer [a] and [b]; the clock reads [second] seconds
    after the start at both readings. *)
Definition quotes (second : Z) (a b : Q) : env :=
  {| clock_fetch := seconds second;
     clock_record := seconds second;
     alpha_vantage := Quote (Finite a);
     yahoo_finance := Quote (Finite b) |}.

(** The state after one cycle for XYZ at 100.00 and 100.80. *)
Definition after_xyz : t := run newton_sqrt init [(quotes 0 100 100.8, "XYZ")].

(** A row for [symbol] with both prices at 100. *)
Definition flat_row (symbol : string) : ComparisonRecord :=
  {| Timestamp := 0%Z; Symbol := symbol;
     Alpha_Vantage_Price := 100; Yahoo_Finance_Price := 100;
     Difference := 0; Moving_Average := None; Volatility := None |}.

(** A history at the cap. *)
Definition full_history : t :=
  {| price_history := replicate 1000 (flat_row "ABC"); last_fetch_time := ∅ |}.

(** A row for [symbol] with the given two prices, and histories of one
    and of five such rows. *)
Definition price_row (symbol : string) (alpha yahoo : Q) : ComparisonRecord :=
  {| Timestamp := 0%Z; Symbol := symbol;
     Alpha_Vantage_Price := alpha; Yahoo_Finance_Price := yahoo;
     Difference := 0; Moving_Average := None; Volatility := None |}.

Definition one_row (symbol : string) (alpha yahoo : Q) : t :=
  {| price_history := [price_row symbol alpha yahoo]; last_fetch_time := ∅ |}.

Definition five_rows (symbol : string) (alpha yahoo : Q) : t :=
  {| price_history := replicate 5 (price_row symbol alpha yahoo);
     last_fetch_time := ∅ |}.

(** A history of rows for [symbol] with the given discrepancies. *)
Definition with_differences (symbol : string) (differences : list Q) : t :=
  {| price_history :=
       (λ d, {| Timestamp := 0%Z; Symbol := symbol;
                Alpha_Vantage_Price := 100; Yahoo_Finance_Price := 100 + d;
                Difference := d; Moving_Average := None; Volatility := None |})
         <$> differences;
     last_fetch_time := ∅ |}.

End DataFetcher.

(** ** More of pandas: the aggregates of the reports *)

Module PandasAggregates.
Local Open Scope Q_scope.

(** [s.max()] and [s.min()]; [NaN] for an empty series. *)
Definition series_max (s : list Q) : option Q :=
  match s with
  | [] => None
  | x :: rest => Some (foldl Qmax x rest)
  end.

Definition series_min (s : list Q) : option Q :=
  match s with
  | [] => None
  | x :: rest => Some (foldl Qmin x rest)
  end.

(** [s.nunique()] on a column of strings: the number of distinct
    entries. *)
Definition nunique (s : list string) : nat := length (remove_dups s).

End PandasAggregates.

(** ** [src/alert_system.py]: construction and reports *)

Module AlertSystemReports.
Import Time Pandas PandasAggregates AlertSystem.
Local Open Scope Q_scope.

(** [str.split(',')]: the pieces between the commas; never an empty
    list. *)
Fixpoint split_commas (s : string) : list string :=
  match s with
  | EmptyString => [EmptyString]
  | String c rest =>
      if decide (String c EmptyString = ",") then EmptyString :: split_commas rest
      else
        match split_commas rest with
        | piece :: pieces => String c piece :: pieces
        | [] => [String c EmptyString]
        end
  end.

(** The truth value of an optional string ([None] and [''] are false)
    and of a list (only [[]] is false). *)
Definition str_truthy (s : option string) : bool :=
  match s with
  | Some (String _ _) => true
  | _ => false
  end.

Definition list_truthy {A} (l : list A) : bool := negb (empty l).

(** [os.getenv(key)] and [os.getenv(key, default)] over the process
    environment. *)
Definition getenv (environ : gmap string string) (key : string) : option string :=
  environ !! key.

Definition getenv_default (environ : gmap string string) (key fallback : string)
  : string :=
  default fallback (environ !! key).

(** The fields of [AlertSystem] that only reach the message. *)
Record mail_config := {
  sender_email : option string;
  sender_password : option string;
  recipients : list string
}.

Section Construction.
(** [float(text)]: the number, or [None] for the [ValueError] of a text
    that is no number. *)
Variable float : string → option Q.

(** [__init__] over an environment: the mail fields and the state, or the
    exception raised. *)
Definition __init__ (environ : gmap string string)
  : DataFetcher.outcome (mail_config * t) :=
  let sender_email := getenv environ "EMAIL_SENDER" in
  let sender_password := getenv environ "EMAIL_PASSWORD" in
  let recipients := split_commas (getenv_default environ "EMAIL_RECIPIENTS" "") in
  match float (getenv_default environ "DISCREPANCY_THRESHOLD" "0.5") with
  | None => DataFetcher.Raised "ValueError"
  | Some threshold =>
      if negb (str_truthy sender_email && str_truthy sender_password
               && list_truthy recipients)
      then DataFetcher.Raised "ValueError"
      else DataFetcher.Returned
             ({| sender_email := sender_email;
                 sender_password := sender_password;
                 recipients := recipients |},
              init threshold)
  end.

End Construction.

(** [get_alert_history]. *)
Definition get_alert_history (self : t) : list AlertRecord := alert_history self.

(** The dictionary that [get_alert_stats] returns. *)
Record alert_stats := {
  total_alerts : nat;
  unique_symbols : nat;
  avg_discrepancy : option Q;
  max_discrepancy : option Q
}.

Section Stats.
(** [s.mean()] of a column of floats of any length.  Its sum is rounded
    as the library in use adds the entries, so the mean is a parameter of
    the reports. *)
Variable pd_mean : list Q → option Q.

(** [get_alert_stats]. *)
Definition get_alert_stats (self : t) : alert_stats :=
  if empty (alert_history self)
  then {| total_alerts := 0; unique_symbols := 0;
          avg_discrepancy := Some 0; max_discrepancy := Some 0 |}
  else {| total_alerts := length (alert_history self);
          unique_symbols := nunique (Symbol <$> alert_history self);
          avg_discrepancy := pd_mean (Discrepancy <$> alert_history self);
          max_discrepancy := series_max (Discrepancy <$> alert_history self) |}.

End Stats.

(** The rows of [symbol], oldest first. *)
Definition alerts_of (self : t) (symbol : string) : list AlertRecord :=
  filter (λ r, Symbol r = symbol) (alert_history self).

(** Every row records a delivered alert above the threshold. *)
Definition rows_above_threshold (self : t) : Prop :=
  ∀ r, r ∈ alert_history self →
    Alert_Sent r = true ∧ Alert_Type r = "threshold_exceeded"
    ∧ threshold self < Qabs (Discrepancy r).

(** [last_alert_time] holds, for each symbol, the time of its latest
    row, and nothing for a symbol without rows. *)
Definition last_alert_is_latest (self : t) : Prop :=
  ∀ symbol, last_alert_time self !! symbol = Timestamp <$> last (alerts_of self symbol).

(** Among the rows recorded up to and including row [j], at most five of
    its symbol lie in the hour that ends at its time. *)
Definition hourly_cap (self : t) : Prop :=
  ∀ (j : nat) (r : AlertRecord),
    alert_history self !! j = Some r →
    (length (filter (λ r', Symbol r' = Symbol r
                           ∧ (Timestamp r - hours 1 < Timestamp r')%Z)
                    (take (S j) (alert_history self))) ≤ 5)%nat.

(** How many calls of a sequence returned [True]. *)
Definition count_sent (results : list bool) : nat :=
  length (filter (λ b, b = true) results).

End AlertSystemReports.

(** ** [src/data_fetcher.py]: construction and reports *)

Module DataFetcherReports.
Import Time Pandas PandasAggregates DataFetcher.
Local Open Scope Q_scope.

(** [__init__] over an environment: the key must be there and not
    empty. *)
Definition __init__ (environ : gmap string string) : outcome t :=
  if negb (AlertSystemReports.str_truthy
             (AlertSystemReports.getenv environ "ALPHA_VANTAGE_API_KEY"))
  then Raised "ValueError"
  else Returned init.

(** [get_historical_comparison]. *)
Definition get_historical_comparison (self : t) : list ComparisonRecord :=
  price_history self.

(** The dictionary that [get_analytics_summary] returns. *)
Record analytics_summary := {
  total_comparisons : nat;
  avg_difference : option Q;
  max_difference : option Q;
  min_difference : option Q;
  current_trend : option string
}.

Section Summary.
Variable np_sqrt : Q → Q.
(** [s.mean()] of a column of floats of any length, a parameter as in
    the reports of the alert system. *)
Variable pd_mean : list Q → option Q.

(** [get_analytics_summary]. *)
Definition get_analytics_summary (self : t) (symbol : string) : analytics_summary :=
  let symbol_data := symbol_rows self symbol in
  if empty symbol_data
  then {| total_comparisons := 0; avg_difference := None; max_difference := None;
          min_difference := None; current_trend := None |}
  else {| total_comparisons := length symbol_data;
          avg_difference := pd_mean (Difference <$> symbol_data);
          max_difference := series_max (Difference <$> symbol_data);
          min_difference := series_min (Difference <$> symbol_data);
          current_trend := trend (_calculate_analytics np_sqrt self symbol) |}.

End Summary.

(** The discrepancy of a row is that of its two prices, relative to
    source A. *)
Definition rows_consistent (self : t) : Prop :=
  ∀ r, r ∈ price_history self →
    Difference r
    = Qabs (Alpha_Vantage_Price r - Yahoo_Finance_Price r) / Alpha_Vantage_Price r * 100.

(** Every symbol with a row has been fetched from source A. *)
Definition rows_fetched (self : t) : Prop :=
  ∀ r, r ∈ price_history self → is_Some (last_fetch_time self !! Symbol r).

(** The rows are in the order of their timestamps, none later than
    [now]. *)
Definition timestamps_ordered (self : t) (now : datetime) : Prop :=
  (∀ (i j : nat) (r1 r2 : ComparisonRecord),
     (i ≤ j)%nat → price_history self !! i = Some r1 →
     price_history self !! j = Some r2 → (Timestamp r1 ≤ Timestamp r2)%Z)
  ∧ (∀ r, r ∈ price_history self → (Timestamp r ≤ now)%Z).

(** The clock of a sequence of cycles never runs backwards: each reading
    for a record is at least [start] and at most the next. *)
Fixpoint clock_monotone (start : datetime) (cycles : list (env * string)) : Prop :=
  match cycles with
  | [] => True
  | c :: cycles =>
      (start ≤ clock_record c.1)%Z ∧ clock_monotone (clock_record c.1) cycles
  end.

(** The last reading of the clock in a sequence of cycles. *)
Definition final_clock (start : datetime) (cycles : list (env * string)) : datetime :=
  foldl (λ _ c, clock_record c.1) start cycles.

(** The state after a first cycle for XYZ and, five seconds later, a first
    cycle for ABC at 101.00 and 101.20. *)
Definition after_xyz_then_abc : t :=
  run newton_sqrt init [(quotes 0 100 100.8, "XYZ"); (quotes 5 101 101.2, "ABC")].

End DataFetcherReports.

(** ** [src/dashboard.py]: the performance metrics and the polling loop *)

Module Dashboard.
Import Time Pandas DataFetcher.
Local Open Scope Q_scope.

(** [PerformanceMetrics]; [last_refresh] is set once to [None] and
    never written again. *)
Record PerformanceMetrics := {
  api_response_times : list Q;
  error_counts : gmap string nat
}.

(** [PerformanceMetrics.__init__]. *)
Definition new_metrics : PerformanceMetrics :=
  {| api_response_times := [];
     error_counts := <["alpha_vantage" := 0%nat]> (<["yahoo_finance" := 0%nat]> ∅) |}.

(** [add_response_time]: [append], then [pop(0)] beyond 100 entries. *)
Definition add_response_time (self : PerformanceMetrics) (duration : Q)
  : PerformanceMetrics :=
  let times := api_response_times self ++ [duration] in
  {| api_response_times := if (100 <? length times)%nat then drop 1 times else times;
     error_counts := error_counts self |}.

(** [increment_error]: [self.error_counts[source] += 1] raises
    [KeyError] for a source that is no key. *)
Definition increment_error (self : PerformanceMetrics) (source : string)
  : outcome PerformanceMetrics :=
  match error_counts self !! source with
  | Some count =>
      Returned {| api_response_times := api_response_times self;
                  error_counts := <[source := S count]> (error_counts self) |}
  | None => Raised "KeyError"
  end.

(** [get_error_rates]. *)
Definition get_error_rates (self : PerformanceMetrics) : gmap string Q :=
  let total_requests := length (api_response_times self) in
  (λ count : nat,
     if (0 <? total_requests)%nat
     then inject_Z (Z.of_nat count) / inject_Z (Z.of_nat total_requests) * 100
     else 0)
    <$> error_counts self.

(** The three components that [init_components] builds. *)
Record components := {
  data_fetcher : DataFetcher.t;
  alert_system : AlertSystem.t;
  metrics : PerformanceMetrics
}.

(** What one pass of the main loop finds outside: the time that the
    comparison took and what the two components find. *)
Record pass := {
  duration : Q;
  fetch_env : DataFetcher.env;
  alert_env : AlertSystem.env
}.

Section Loop.
Variable np_sqrt : Q → Q.

(** One pass of the [while True] loop for [symbol], as far as it changes
    the three components; the calls that only draw are taken to return.
    An exception of [get_price_comparison] or of [increment_error] is
    caught by the [except] of the loop and ends the pass there. *)
Definition loop_pass (c : components) (p : pass) (symbol : string) : components :=
  let '(fetcher, result, _) :=
    get_price_comparison np_sqrt (data_fetcher c) (fetch_env p) symbol in
  match result with
  | Raised _ =>
      {| data_fetcher := fetcher; alert_system := alert_system c; metrics := metrics c |}
  | Returned (alpha_price, yahoo_price, diff_percentage) =>
      let metrics := add_response_time (metrics c) (duration p) in
      match alpha_price, yahoo_price, diff_percentage with
      | Some alpha_price, Some yahoo_price, Some diff_percentage =>
          let alerts :=
            if AlertSystem.should_send_alert (alert_system c) diff_percentage
            then (AlertSystem.send_alert (alert_system c) (alert_env p) symbol
                    alpha_price yahoo_price diff_percentage).1
            else alert_system c in
          {| data_fetcher := fetcher; alert_system := alerts; metrics := metrics |}
      | _, _, _ =>
          let after_alpha :=
            match alpha_price with
            | None => increment_error metrics "alpha_vantage"
            | Some _ => Returned metrics
            end in
          match after_alpha with
          | Raised _ =>
              {| data_fetcher := fetcher; alert_system := alert_system c;
                 metrics := metrics |}
          | Returned metrics =>
              let after_yahoo :=
                match yahoo_price with
                | None => increment_error metrics "yahoo_finance"
                | Some _ => Returned metrics
                end in
              match after_yahoo with
              | Raised _ =>
                  {| data_fetcher := fetcher; alert_system := alert_system c;
                     metrics := metrics |}
              | Returned metrics =>
                  {| data_fetcher := fetcher; alert_system := alert_system c;
                     metrics := metrics |}
              end
          end
      end
  end.

(** The loop over a sequence of passes for one symbol. *)
Definition loop (c : components) (symbol : string) (passes : list pass) : components :=
  foldl (λ c p, loop_pass c p symbol) c passes.

(** What [get_price_comparison] answered in each pass of the loop. *)
Fixpoint loop_outcomes (c : components) (symbol : string) (passes : list pass)
  : list (pass * outcome price_comparison) :=
  match passes with
  | [] => []
  | p :: passes =>
      (p, (get_price_comparison np_sqrt (data_fetcher c) (fetch_env p) symbol).1.2)
        :: loop_outcomes (loop_pass c p symbol) symbol passes
  end.

End Loop.

(** The passes in which the comparison came back as
    [(None, None, None)], and the durations of the passes in which it
    came back at all. *)
Definition is_null (o : outcome price_comparison) : bool :=
  match o with
  | Returned (None, None, None) => true
  | _ => false
  end.

Definition has_returned (o : outcome price_comparison) : bool :=
  match o with
  | Returned _ => true
  | Raised _ => false
  end.

Definition count_failed (log : list (pass * outcome price_comparison)) : nat :=
  length (filter (λ entry, is_null entry.2 = true) log).

Definition recorded (log : list (pass * outcome price_comparison)) : list Q :=
  (λ entry, duration entry.1) <$> filter (λ entry, has_returned entry.2 = true) log.

(** The components of a fresh dashboard. *)
Definition new_components (threshold : Q) : components :=
  {| data_fetcher := DataFetcher.init;
     alert_system := AlertSystem.init threshold;
     metrics := new_metrics |}.

(** The count of a source, zero for a source that is no key. *)
Definition errors_of (self : PerformanceMetrics) (source : string) : nat :=
  default 0%nat (error_counts self !! source).

(** The dictionary with the same count for the two sources. *)
Definition both_counts (n : nat) : gmap string nat :=
  <["alpha_vantage" := n]> (<["yahoo_finance" := n]> ∅).

(** A pass in which both providers are down. *)
Definition failing_pass : pass :=
  {| duration := 1;
     fetch_env := {| clock_fetch := 0%Z; clock_record := 0%Z;
                     alpha_vantage := Raises; yahoo_finance := Raises |};
     alert_env := {| AlertSystem.clock_validate := 0%Z; AlertSystem.clock_send := 0%Z;
                     AlertSystem.smtp_delivers := true |} |}.

End Dashboard.

(** * Properties of the alert gate *)

Module AlertSystemFacts.
Import Time AlertSystem.

(** ** Admission, case by case *)

Lemma validate_in_cooldown (self : t) (now : datetime) (symbol : string) (d : Q) :
  in_cooldown self now symbol →
  _validate_alert_conditions self now symbol d = (false, "cooldown").
Proof.
  intros (last & Hlast & Hyoung). unfold _validate_alert_conditions.
  rewrite Hlast. by rewrite bool_decide_eq_true_2.
Qed.

Lemma validate_out_of_cooldown (self : t) (now : datetime) (symbol : string) (d : Q) :
  ¬ in_cooldown self now symbol →
  _validate_alert_conditions self now symbol d =
    if Qle_bool (Qabs d) (threshold self) then (false, "below_threshold")
    else if bool_decide (5 ≤ length (recent_alerts self now symbol))%nat
    then (false, "rate_limit")
    else (true, "valid").
Proof.
  intros Hout. unfold _validate_alert_conditions.
  destruct (last_alert_time self !! symbol) as [last|] eqn:Hlast; [|done].
  rewrite bool_decide_eq_false_2; [done|].
  intros Hyoung. apply Hout. by exists last.
Qed.

Lemma in_cooldown_or_not (self : t) (now : datetime) (symbol : string) :
  in_cooldown self now symbol ∨ ¬ in_cooldown self now symbol.
Proof.
  unfold in_cooldown.
  destruct (last_alert_time self !! symbol) as [last|] eqn:Hlast.
  - destruct (decide (now - last < alert_cooldown self)) as [Hy|Hy].
    + left. by exists last.
    + right. intros (last' & [= <-] & Hy'). lia.
  - right. by intros (last' & [=] & _).
Qed.

Lemma validate_admits_inv (self : t) (now : datetime) (symbol : string) (d : Q) :
  (_validate_alert_conditions self now symbol d).1 = true →
  ¬ in_cooldown self now symbol.
Proof.
  intros Hadmit Hin. by rewrite (validate_in_cooldown _ _ _ _ Hin) in Hadmit.
Qed.

(** ** What a call of [send_alert] does to the state *)

Lemma send_alert_cases (self : t) (e : env) (symbol : string) (a y d : Q) :
  send_alert self e symbol a y d = (self, false)
  ∨ ((_validate_alert_conditions self (clock_validate e) symbol d).1 = true
     ∧ smtp_delivers e = true
     ∧ send_alert self e symbol a y d =
         ({| threshold := threshold self;
             alert_history :=
               alert_history self ++
                 [{| Timestamp := clock_send e; Symbol := symbol; Discrepancy := d;
                     Alert_Sent := true; Alert_Type := "threshold_exceeded" |}];
             last_alert_time := <[symbol := clock_send e]> (last_alert_time self);
             alert_cooldown := alert_cooldown self |}, true)).
Proof.
  unfold send_alert.
  destruct (_validate_alert_conditions self (clock_validate e) symbol d)
    as [[] reason]; simpl; [|by left].
  destruct (smtp_delivers e); [by right|by left].
Qed.

Lemma ledger_ok_init (threshold : Q) : ledger_ok (init threshold).
Proof.
  split_and!.
  - unfold init, minutes; simpl. lia.
  - intros r Hr. by apply elem_of_nil in Hr.
  - intros i j r1 r2 _ Hi. simpl in Hi. by rewrite lookup_nil in Hi.
Qed.

Lemma ledger_ok_step (self : t) (c : call) :
  clock_sane c → ledger_ok self → ledger_ok (step self c).
Proof.
  intros Hclock (Hcd & Hlast & Hapart). unfold step.
  destruct (send_alert_cases self (c_env c) (c_symbol c)
              (c_alpha_price c) (c_yahoo_price c) (c_difference c))
    as [-> | (Hadmit & _ & ->)]; [done|].
  apply validate_admits_inv in Hadmit. unfold clock_sane in Hclock.
  set (new := {| Timestamp := clock_send (c_env c); Symbol := c_symbol c;
                 Discrepancy := c_difference c; Alert_Sent := true;
                 Alert_Type := "threshold_exceeded" |}).
  assert (Hold : ∀ r, r ∈ alert_history self → Symbol r = c_symbol c →
                 Timestamp r + alert_cooldown self ≤ clock_send (c_env c)).
  { intros r Hr Hsym. destruct (Hlast r Hr) as (last & Hl & Hle).
    rewrite Hsym in Hl.
    destruct (decide (clock_validate (c_env c) - last < alert_cooldown self)) as [Hy|Hy].
    - exfalso. apply Hadmit. by exists last.
    - lia. }
  split_and!; simpl.
  - done.
  - intros r [Hr | ->%list_elem_of_singleton]%elem_of_app.
    + destruct (decide (Symbol r = c_symbol c)) as [Hsym|Hsym].
      * rewrite Hsym, lookup_insert_eq. eexists; split; [done|].
        specialize (Hold r Hr Hsym). lia.
      * rewrite lookup_insert_ne by done. by apply Hlast.
    + simpl. rewrite lookup_insert_eq. eexists; split; [done|]. lia.
  - intros i j r1 r2 Hij Hi Hj Hsym. simpl in *.
    apply lookup_app_Some in Hi as [Hi | [Hli Hi]];
      apply lookup_app_Some in Hj as [Hj | [Hlj Hj]].
    + by apply (Hapart i j).
    + apply list_lookup_singleton_Some in Hj as [_ <-]. simpl in *.
      assert (r1 ∈ alert_history self) as Hr1 by (by eapply list_elem_of_lookup_2).
      specialize (Hold r1 Hr1 Hsym). lia.
    + apply list_lookup_singleton_Some in Hi as [_ <-]. simpl in *.
      assert (r2 ∈ alert_history self) as Hr2 by (by eapply list_elem_of_lookup_2).
      specialize (Hold r2 Hr2 (eq_sym Hsym)). lia.
    + apply list_lookup_singleton_Some in Hi as [Hi _].
      apply list_lookup_singleton_Some in Hj as [Hj _]. lia.
Qed.

Lemma ledger_ok_run (calls : list call) : ∀ self,
  Forall clock_sane calls → ledger_ok self → ledger_ok (run self calls).
Proof.
  induction calls as [|c calls IH]; intros self Hclock Hok; [done|].
  apply Forall_cons in Hclock as [Hc Hcs]. simpl.
  apply IH; [done|]. by apply ledger_ok_step.
Qed.

Lemma cooldown_run (calls : list call) : ∀ self,
  alert_cooldown (run self calls) = alert_cooldown self.
Proof.
  induction calls as [|c calls IH]; intros self; [done|].
  simpl. rewrite IH. unfold step.
  by destruct (send_alert_cases self (c_env c) (c_symbol c)
                 (c_alpha_price c) (c_yahoo_price c) (c_difference c))
    as [-> | (_ & _ & ->)].
Qed.

(** C3, as stated, fails: [send_alert] reads the clock once for the
    admission check and once more for the row.  When the clock is set
    back between the two readings of a call, the row is stamped earlier
    than the time that was checked: an alert at the start and a call
    checked at six minutes and stamped at one minute leave two rows for
    XYZ one minute apart. *)
Lemma clock_set_back_breaks_cooldown :
  ¬ (∀ (threshold : Q) (calls : list call),
       cooldown_apart (run (init threshold) calls)).
Proof.
  intros Hclaim.
  pose proof (Hclaim default_threshold [xyz_call 0 true; clock_set_back_call]
                0%nat 1%nat
                {| Timestamp := minutes 0; Symbol := "XYZ"; Discrepancy := 0.8;
                   Alert_Sent := true; Alert_Type := "threshold_exceeded" |}
                {| Timestamp := minutes 1; Symbol := "XYZ"; Discrepancy := 0.8;
                   Alert_Sent := true; Alert_Type := "threshold_exceeded" |}
                ltac:(lia) ltac:(vm_compute; reflexivity)
                ltac:(vm_compute; reflexivity) eq_refl) as Hclose.
  vm_compute in Hclose. by apply Hclose.
Qed.

(** C3, amended. Starting from a fresh [AlertSystem], after any sequence
    of [send_alert] calls (any symbols, discrepancies, clock readings and
    delivery outcomes) in which the clock does not run backwards between
    the two readings of one call, no two rows of the alert history for
    the same symbol are closer than the cooldown of five minutes; and in
    any state, a call for a symbol whose entry in [last_alert_time] is
    less than five minutes old is refused with reason "cooldown" and
    changes nothing. *)
Theorem send_alert_keeps_cooldown_apart (threshold : Q) (calls : list call) :
  Forall clock_sane calls →
  (alert_cooldown (run (init threshold) calls) = minutes 5
   ∧ cooldown_apart (run (init threshold) calls))
  ∧ (∀ (self : t) (e : env) (symbol : string) (a y d : Q),
       in_cooldown self (clock_validate e) symbol →
       _validate_alert_conditions self (clock_validate e) symbol d = (false, "cooldown")
       ∧ send_alert self e symbol a y d = (self, false)).
Proof.
  intros Hclock. split; [split|].
  - by rewrite cooldown_run.
  - by apply ledger_ok_run; [|apply ledger_ok_init].
  - intros self e symbol a y d Hin.
    pose proof (validate_in_cooldown self _ symbol d Hin) as Hv.
    split; [done|]. unfold send_alert. by rewrite Hv.
Qed.

(** The end-to-end example: the first alert for XYZ is sent, the same
    comparison one minute later is refused, and six minutes after the
    start the next one is sent. *)
Lemma send_alert_keeps_cooldown_apart_witness :
  Forall clock_sane [xyz_call 0 true; xyz_call 1 true; xyz_call 6 true]
  ∧ cooldown_apart
      (run (init default_threshold) [xyz_call 0 true; xyz_call 1 true; xyz_call 6 true]).
Proof.
  assert (Hclock : Forall clock_sane [xyz_call 0 true; xyz_call 1 true; xyz_call 6 true]).
  { repeat constructor; unfold clock_sane; simpl; lia. }
  split; [exact Hclock|].
  exact (proj2 (proj1 (send_alert_keeps_cooldown_apart default_threshold _ Hclock))).
Defined.

Example xyz_returns :
  returns (init default_threshold) [xyz_call 0 true; xyz_call 1 true; xyz_call 6 true]
  = [true; false; true].
Proof. vm_compute. reflexivity. Qed.

Example xyz_second_reason :
  _validate_alert_conditions (run (init default_threshold) [xyz_call 0 true])
    (minutes 1) "XYZ" 0.8 = (false, "cooldown").
Proof. vm_compute. reflexivity. Qed.

(** C4, as stated, fails: a discrepancy below the threshold for a symbol
    that is in cooldown is refused with reason "cooldown". *)
Lemma below_threshold_masked_by_cooldown :
  ¬ (∀ (self : t) (now : datetime) (symbol : string) (d : Q),
       (Qabs d <= threshold self)%Q →
       _validate_alert_conditions self now symbol d = (false, "below_threshold")).
Proof.
  intros Hclaim.
  specialize (Hclaim (run (init default_threshold) [xyz_call 0 true])
                     (minutes 1) "XYZ" 0.1%Q).
  vm_compute in Hclaim.
  assert (Hle : (1 * 10 ?= 5 * 10) = Gt → False) by (vm_compute; discriminate).
  specialize (Hclaim Hle). discriminate Hclaim.
Qed.

(** C4, amended. A discrepancy with [|d| <= threshold] is refused in
    every state, whatever the alert history: with reason
    "below_threshold" when the symbol is not in cooldown, with reason
    "cooldown" when it is. *)
Theorem below_threshold_outside_cooldown
    (self : t) (now : datetime) (symbol : string) (d : Q) :
  (Qabs d <= threshold self)%Q →
  (¬ in_cooldown self now symbol →
     _validate_alert_conditions self now symbol d = (false, "below_threshold"))
  ∧ (in_cooldown self now symbol →
     _validate_alert_conditions self now symbol d = (false, "cooldown"))
  ∧ (∀ (e : env) (a y : Q),
       clock_validate e = now → send_alert self e symbol a y d = (self, false)).
Proof.
  intros Hle. apply Qle_bool_iff in Hle.
  assert (Hout : ¬ in_cooldown self now symbol →
            _validate_alert_conditions self now symbol d = (false, "below_threshold")).
  { intros Hout. rewrite validate_out_of_cooldown by done. by rewrite Hle. }
  split_and!; [done|apply validate_in_cooldown|].
  intros e a y <-. unfold send_alert.
  destruct (in_cooldown_or_not self (clock_validate e) symbol) as [Hin|Hnin].
  - by rewrite (validate_in_cooldown _ _ _ d Hin).
  - by rewrite (Hout Hnin).
Qed.

Lemma below_threshold_outside_cooldown_witness :
  (Qabs 0.3 <= threshold (init default_threshold))%Q
  ∧ _validate_alert_conditions (init default_threshold) (minutes 1) "XYZ" 0.3
    = (false, "below_threshold").
Proof.
  assert (Hle : (Qabs 0.3 <= threshold (init default_threshold))%Q)
    by (vm_compute; discriminate).
  split; [exact Hle|].
  apply (below_threshold_outside_cooldown (init default_threshold) (minutes 1) "XYZ" 0.3 Hle).
  intros (last & Hlast & _). vm_compute in Hlast. discriminate Hlast.
Defined.

(** C5, as stated, fails in its last part: [send_alert] returns the same
    [False] for a delivery that failed as for an alert that was
    suppressed. *)
Lemma dispatch_failure_returns_as_suppressed :
  ¬ (∀ (self : t) (e : env) (symbol : string) (a y d : Q),
       (_validate_alert_conditions self (clock_validate e) symbol d).1 = true →
       smtp_delivers e = false →
       alert_history (send_alert self e symbol a y d).1 = alert_history self
       ∧ last_alert_time (send_alert self e symbol a y d).1 = last_alert_time self
       ∧ (∀ (self' : t) (e' : env) (symbol' : string) (a' y' d' : Q),
            (_validate_alert_conditions self' (clock_validate e') symbol' d').1 = false →
            (send_alert self e symbol a y d).2 ≠ (send_alert self' e' symbol' a' y' d').2)).
Proof.
  intros Hclaim.
  destruct (Hclaim (init default_threshold) (c_env (xyz_call 0 false)) "XYZ" 100%Q 100.8%Q 0.8%Q)
    as (_ & _ & Hdistinct); [by vm_compute..|].
  apply (Hdistinct (init default_threshold) (c_env (xyz_call 0 true)) "XYZ" 100%Q 100.8%Q 0.3%Q);
    by vm_compute.
Qed.

(** C5, amended. When a call of [send_alert] passes every admission check
    and the delivery fails, the state is left as it was: no row is added
    to the alert history and [last_alert_time] is not touched, so that
    every later admission decision is the one it would have been without
    the call; and the call returns [False], the value that a suppressed
    alert returns too. *)
Theorem dispatch_failure_leaves_ledger
    (self : t) (e : env) (symbol : string) (a y d : Q) :
  (_validate_alert_conditions self (clock_validate e) symbol d).1 = true →
  smtp_delivers e = false →
  alert_history (send_alert self e symbol a y d).1 = alert_history self
  ∧ last_alert_time (send_alert self e symbol a y d).1 = last_alert_time self
  ∧ (∀ (now : datetime) (symbol' : string) (d' : Q),
       _validate_alert_conditions (send_alert self e symbol a y d).1 now symbol' d'
       = _validate_alert_conditions self now symbol' d')
  ∧ (send_alert self e symbol a y d).2 = false
  ∧ (∀ (self' : t) (e' : env) (symbol' : string) (a' y' d' : Q),
       (_validate_alert_conditions self' (clock_validate e') symbol' d').1 = false →
       (send_alert self' e' symbol' a' y' d').2 = (send_alert self e symbol a y d).2).
Proof.
  intros Hadmit Hfail.
  assert (Hsame : send_alert self e symbol a y d = (self, false)).
  { destruct (send_alert_cases self e symbol a y d) as [H | (_ & Hok & _)]; [done|].
    congruence. }
  rewrite Hsame. split_and!; try done.
  intros self' e' symbol' a' y' d' Hrefused. unfold send_alert.
  destruct (_validate_alert_conditions self' (clock_validate e') symbol' d')
    as [allowed reason]. simpl in Hrefused. by subst allowed.
Qed.

Lemma dispatch_failure_leaves_ledger_witness :
  (_validate_alert_conditions (init default_threshold) (minutes 0) "XYZ" 0.8).1 = true
  ∧ alert_history
      (send_alert (init default_threshold) (c_env (xyz_call 0 false)) "XYZ" 100 100.8 0.8).1
    = []
  ∧ (send_alert (init default_threshold) (c_env (xyz_call 0 false)) "XYZ" 100 100.8 0.8).2
    = false.
Proof.
  assert (Hadmit :
    (_validate_alert_conditions (init default_threshold) (minutes 0) "XYZ" 0.8).1 = true)
    by (vm_compute; reflexivity).
  pose proof (dispatch_failure_leaves_ledger (init default_threshold)
                (c_env (xyz_call 0 false)) "XYZ" 100 100.8 0.8 Hadmit eq_refl)
    as (Hhistory & _ & _ & Hreturn & _).
  split; [exact Hadmit|]. split; [exact Hhistory|exact Hreturn].
Defined.

(** ** The hourly limit *)

Lemma recent_alerts_spec (self : t) (now : datetime) (symbol : string) (r : AlertRecord) :
  r ∈ recent_alerts self now symbol
  ↔ r ∈ alert_history self ∧ Symbol r = symbol ∧ now - hours 1 < Timestamp r.
Proof. unfold recent_alerts. rewrite list_elem_of_filter. tauto. Qed.

(** C8. For an attempt that passes the cooldown and threshold checks:
    with five or more rows for the symbol in the trailing hour the
    attempt is refused with reason "rate_limit"; with at most four it is
    admitted.  So a sixth attempt in the hour is refused and a fifth is
    not. *)
Theorem rate_limit_at_five (self : t) (now : datetime) (symbol : string) (d : Q) :
  ¬ in_cooldown self now symbol →
  (threshold self < Qabs d)%Q →
  ((5 ≤ length (recent_alerts self now symbol))%nat →
     _validate_alert_conditions self now symbol d = (false, "rate_limit"))
  ∧ ((length (recent_alerts self now symbol) ≤ 4)%nat →
     _validate_alert_conditions self now symbol d = (true, "valid")).
Proof.
  intros Hout Habove. rewrite validate_out_of_cooldown by done.
  assert (Qle_bool (Qabs d) (threshold self) = false) as ->.
  { destruct (Qle_bool (Qabs d) (threshold self)) eqn:Hle; [|done].
    apply Qle_bool_iff in Hle. exfalso. by apply (Qlt_not_le _ _ Habove). }
  split; intros Hn.
  - by rewrite bool_decide_eq_true_2.
  - rewrite bool_decide_eq_false_2; [done|lia].
Qed.

Lemma rate_limit_at_five_witness :
  length (recent_alerts five_xyz_alerts (minutes 50) "XYZ") = 5%nat
  ∧ _validate_alert_conditions five_xyz_alerts (minutes 50) "XYZ" 0.8
    = (false, "rate_limit").
Proof.
  split; [vm_compute; reflexivity|].
  apply (rate_limit_at_five five_xyz_alerts (minutes 50) "XYZ" 0.8%Q).
  - intros (last & Hlast & Hyoung). vm_compute in Hlast.
    injection Hlast as <-. vm_compute in Hyoung. discriminate Hyoung.
  - vm_compute. reflexivity.
  - vm_compute. lia.
Defined.

(** Six attempts for XYZ within one hour, ten minutes apart, each above
    the threshold and delivered if admitted: the first five are sent, the
    sixth is refused; after the first alert has left the trailing hour an
    attempt is sent again. *)
Example six_attempts_in_an_hour :
  returns (init default_threshold)
    [xyz_call 0 true; xyz_call 10 true; xyz_call 20 true;
     xyz_call 30 true; xyz_call 40 true; xyz_call 50 true; xyz_call 60 true]
  = [true; true; true; true; true; false; true].
Proof. vm_compute. reflexivity. Qed.

End AlertSystemFacts.

(** * Properties of the pandas operations *)

Module PandasFacts.
Import Pandas.
Local Open Scope Q_scope.

Lemma tail_length {A} (n : nat) (rows : list A) :
  length (tail n rows) = (n `min` length rows)%nat.
Proof. unfold tail. rewrite length_drop. lia. Qed.

Lemma tail_min {A} (n : nat) (rows : list A) :
  tail (n `min` length rows) rows = tail n rows.
Proof. unfold tail. f_equal. lia. Qed.

Lemma tail_all {A} (n : nat) (rows : list A) :
  (length rows ≤ n)%nat → tail n rows = rows.
Proof. intros Hle. unfold tail. by replace (length rows - n)%nat with 0%nat by lia. Qed.

Lemma tail_nil_inv {A} (n : nat) (rows : list A) :
  (0 < n)%nat → tail n rows = [] → rows = [].
Proof.
  intros Hn Hnil. apply (f_equal length) in Hnil. rewrite tail_length in Hnil.
  apply length_zero_iff_nil. simpl in Hnil. lia.
Qed.

Lemma tail_elem_of {A} (n : nat) (rows : list A) (x : A) :
  x ∈ tail n rows → x ∈ rows.
Proof.
  unfold tail. intros Hx. rewrite <- (take_drop (length rows - n) rows).
  apply elem_of_app. by right.
Qed.

(** Appending to a full window pushes the oldest row out. *)
Lemma tail_snoc_full {A} (n : nat) (rows : list A) (x : A) :
  (0 < n)%nat → length rows = n → tail n (rows ++ [x]) = drop 1 rows ++ [x].
Proof.
  intros Hpos Hn. unfold tail. rewrite length_app. simpl.
  replace (length rows + 1 - n)%nat with 1%nat by lia.
  destruct rows as [|r rows]; simpl.
  - simpl in Hn. lia.
  - by rewrite drop_0.
Qed.

Lemma last_seq (n : nat) : last (seq 0 (S n)) = Some n.
Proof. rewrite seq_S. simpl. apply last_snoc. Qed.

(** The last entry of a rolling mean is the mean of the trailing
    window. *)
Lemma rolling_mean_last (window : nat) (s : list Q) :
  (1 ≤ window)%nat → s ≠ [] →
  mjoin (iloc_last (rolling_mean window 1 s)) = series_mean (tail window s).
Proof.
  intros Hw Hs. unfold iloc_last, rolling_mean.
  destruct (length s) as [|n] eqn:Hlen.
  { by apply length_zero_iff_nil in Hlen. }
  rewrite fmap_last, last_seq. simpl.
  rewrite <- Hlen, firstn_all.
  assert ((length (tail window s) <? 1)%nat = false) as ->; [|done].
  apply Nat.ltb_ge. rewrite tail_length. lia.
Qed.

Lemma nondecreasing_cons_inv (x : Q) (s : list Q) :
  nondecreasing (x :: s) → nondecreasing s.
Proof. intros H i j a b Hij Hi Hj. apply (H (S i) (S j)); [lia|done..]. Qed.

Lemma nonincreasing_cons_inv (x : Q) (s : list Q) :
  nonincreasing (x :: s) → nonincreasing s.
Proof. intros H i j a b Hij Hi Hj. apply (H (S i) (S j)); [lia|done..]. Qed.

(** [is_monotonic_increasing] decides [nondecreasing]. *)
Lemma is_monotonic_increasing_spec (s : list Q) :
  is_monotonic_increasing s = true ↔ nondecreasing s.
Proof.
  induction s as [|x rest IH].
  { split; [|done]. intros _ i j a b _ Hi. by rewrite lookup_nil in Hi. }
  destruct rest as [|y rest].
  { split; [|done]. intros _ [|i] [|j] a b Hij Hi Hj; simplify_eq/=.
    apply Qle_refl. }
  change (is_monotonic_increasing (x :: y :: rest))
    with (Qle_bool x y && is_monotonic_increasing (y :: rest)).
  rewrite andb_true_iff, Qle_bool_iff, IH. split.
  - intros [Hxy Hrest] [|i] [|j] a b Hij Hi Hj; simplify_eq/=.
    + apply Qle_refl.
    + apply Qle_trans with y; [done|]. apply (Hrest 0%nat j); [lia|done..].
    + lia.
    + apply (Hrest i j); [lia|done..].
  - intros H. split.
    + apply (H 0%nat 1%nat); [lia|done..].
    + by apply nondecreasing_cons_inv with x.
Qed.

(** [is_monotonic_decreasing] decides [nonincreasing]. *)
Lemma is_monotonic_decreasing_spec (s : list Q) :
  is_monotonic_decreasing s = true ↔ nonincreasing s.
Proof.
  induction s as [|x rest IH].
  { split; [|done]. intros _ i j a b _ Hi. by rewrite lookup_nil in Hi. }
  destruct rest as [|y rest].
  { split; [|done]. intros _ [|i] [|j] a b Hij Hi Hj; simplify_eq/=.
    apply Qle_refl. }
  change (is_monotonic_decreasing (x :: y :: rest))
    with (Qle_bool y x && is_monotonic_decreasing (y :: rest)).
  rewrite andb_true_iff, Qle_bool_iff, IH. split.
  - intros [Hxy Hrest] [|i] [|j] a b Hij Hi Hj; simplify_eq/=.
    + apply Qle_refl.
    + apply Qle_trans with y; [|done]. apply (Hrest 0%nat j); [lia|done..].
    + lia.
    + apply (Hrest i j); [lia|done..].
  - intros H. split.
    + apply (H 0%nat 1%nat); [lia|done..].
    + by apply nonincreasing_cons_inv with x.
Qed.

End PandasFacts.

(** * The rounding against the floats of the kernel *)

Module Binary64Facts.
Import Binary64 DataFetcher.
Local Open Scope Q_scope.

(** The float nearest to 0.1 is [0x1.999999999999ap-4], and it comes back
    unchanged from the kernel. *)
Example round64_tenth : round64 0.1 = 3602879701896397 # 36028797018963968.
Proof. vm_compute. reflexivity. Qed.

Example round64_tenth_kernel :
  kernel_value (kernel_float (Finite (round64 0.1))) = Finite (round64 0.1).
Proof. vm_compute. reflexivity. Qed.

(** [abs(16.39 - 14.9) / 14.9] and [abs(1.1 - 1.0) / 1.0]: the rounded
    operations on rationals give what the kernel's binary64 operations
    give, the float 0.1 itself in the first case and a float above it in
    the second. *)
Example deviation_16_39 :
  kernel_value
    (PrimFloat.div
       (PrimFloat.abs (PrimFloat.sub (kernel_float (Finite (round64 16.39)))
                                     (kernel_float (Finite (round64 14.9)))))
       (kernel_float (Finite (round64 14.9))))
  = relative_deviation (round64 16.39) (Finite (round64 14.9))
  ∧ relative_deviation (round64 16.39) (Finite (round64 14.9))
    = Finite (round64 0.1).
Proof. split; vm_compute; reflexivity. Qed.

Example deviation_1_1 :
  kernel_value
    (PrimFloat.div
       (PrimFloat.abs (PrimFloat.sub (kernel_float (Finite (round64 1.1)))
                                     (kernel_float (Finite 1))))
       (kernel_float (Finite 1)))
  = relative_deviation (round64 1.1) (Finite 1)
  ∧ exceeds (relative_deviation (round64 1.1) (Finite 1)) 0.1.
Proof. split; vm_compute; reflexivity. Qed.

(** The means of three times 0.1 and of three times 0.72 are one unit in
    the last place above 0.1 and 0.72; five times [1e308] add up to an
    infinity; the mean of no entry is [NaN]. *)
Example mean_of_three :
  kernel_value (kernel_mean (replicate 3 (round64 0.1)))
  = float_mean (replicate 3 (round64 0.1))
  ∧ float_mean (replicate 3 (round64 0.1)) = Finite (Qred (round64 0.1 + pow2 (-56)))
  ∧ kernel_value (kernel_mean (replicate 3 (round64 0.72)))
    = float_mean (replicate 3 (round64 0.72))
  ∧ float_mean (replicate 3 (round64 0.72)) = Finite (Qred (round64 0.72 + pow2 (-53))).
Proof. split_and!; vm_compute; reflexivity. Qed.

Example mean_overflows :
  kernel_value (kernel_mean (replicate 5 (round64 1e308)))
  = float_mean (replicate 5 (round64 1e308))
  ∧ float_mean (replicate 5 (round64 1e308)) = Infinity false
  ∧ kernel_value (kernel_mean []) = float_mean []
  ∧ float_mean [] = NaN.
Proof. split_and!; vm_compute; reflexivity. Qed.

(** The largest finite float, and the first rational that rounds beyond
    it. *)
Example largest_float :
  to_float max_float = Finite max_float
  ∧ kernel_value (kernel_float (Finite max_float)) = Finite max_float
  ∧ to_float (max_float + pow2 970) = Infinity false
  ∧ kernel_value (PrimFloat.add (kernel_float (Finite max_float))
                                (kernel_float (Finite (pow2 970))))
    = Infinity false
  ∧ to_float (max_float + pow2 969) = Finite max_float
  ∧ kernel_value (PrimFloat.add (kernel_float (Finite max_float))
                                (kernel_float (Finite (pow2 969))))
    = Finite max_float.
Proof. split_and!; vm_compute; reflexivity. Qed.

End Binary64Facts.

(** * Properties of the reconciler *)

Module DataFetcherFacts.
Import Time Pandas PandasFacts Binary64 DataFetcher.
Local Open Scope Q_scope.

(** ** The price validator and the two fetchers *)

Lemma validate_price_accepts (raw : raw_value) (source_label symbol : string) :
  _validate_price raw source_label symbol = true
  ↔ ∃ q, raw = Number (Finite q) ∧ 0 < q.
Proof.
  unfold _validate_price. split.
  - destruct raw as [| |[q| |]]; try done. intros Hq. exists q. split; [done|].
    apply Qnot_le_lt. intros Hle%Qle_bool_iff. by rewrite Hle in Hq.
  - intros (q & -> & Hq). apply negb_true_iff.
    destruct (Qle_bool q 0) eqn:Hle; [|done].
    apply Qle_bool_iff in Hle. exfalso. by apply (Qlt_not_le _ _ Hq).
Qed.

Lemma get_alpha_vantage_data_cached
    (self : t) (now : datetime) (provider : reply) (symbol : string) :
  fetched_recently self now symbol →
  get_alpha_vantage_data self now provider symbol
  = (self, Alpha_Vantage_Price <$> last (price_history self), []).
Proof.
  intros (last & Hlast & Hrecent). unfold get_alpha_vantage_data.
  rewrite Hlast. by rewrite bool_decide_eq_true_2.
Qed.

Lemma get_alpha_vantage_data_history
    (self : t) (now : datetime) (provider : reply) (symbol : string) :
  price_history (get_alpha_vantage_data self now provider symbol).1.1
  = price_history self.
Proof.
  unfold get_alpha_vantage_data.
  destruct (match last_fetch_time self !! symbol with
            | Some last => bool_decide (now - last < seconds 12)%Z
            | None => false
            end); [done|].
  destruct provider as [| |price]; try done.
  by destruct (_validate_price (Number price) "Alpha Vantage" symbol).
Qed.

Lemma get_yahoo_finance_data_spec (self : t) (provider : reply) (symbol : string) :
  get_yahoo_finance_data self provider symbol
  = (self,
     match provider with
     | Quote price =>
         if _validate_price (Number price) "Yahoo Finance" symbol
         then as_price price else None
     | _ => None
     end,
     [YahooFinance_history symbol]).
Proof.
  unfold get_yahoo_finance_data. destruct provider as [| |price]; try done.
  by destruct (_validate_price (Number price) "Yahoo Finance" symbol).
Qed.

(** ** One cycle *)

Section Cycle.
Variable np_sqrt : Q → Q.

Lemma calculate_analytics_history (self self' : t) (symbol : string) :
  price_history self' = price_history self →
  _calculate_analytics np_sqrt self' symbol = _calculate_analytics np_sqrt self symbol.
Proof.
  intros Hsame. unfold _calculate_analytics, symbol_rows. by rewrite Hsame.
Qed.

(** The row that a cycle stores when both prices came through. *)
Lemma get_price_comparison_cases (self : t) (e : env) (symbol : string) :
  ((get_price_comparison np_sqrt self e symbol).1.2 = null_comparison
   ∧ price_history (get_price_comparison np_sqrt self e symbol).1.1 = price_history self)
  ∨ ((get_price_comparison np_sqrt self e symbol).1.2 ≠ null_comparison
     ∧ ∃ a y,
         price_history (get_price_comparison np_sqrt self e symbol).1.1
         = store (price_history self)
             {| Timestamp := clock_record e;
                Symbol := symbol;
                Alpha_Vantage_Price := a;
                Yahoo_Finance_Price := y;
                Difference := Qabs (a - y) / a * 100;
                Moving_Average := moving_average (_calculate_analytics np_sqrt self symbol);
                Volatility := volatility (_calculate_analytics np_sqrt self symbol) |}).
Proof.
  unfold get_price_comparison.
  pose proof (get_alpha_vantage_data_history self (clock_fetch e) (alpha_vantage e) symbol)
    as Hhist.
  destruct (get_alpha_vantage_data self (clock_fetch e) (alpha_vantage e) symbol)
    as [[self1 alpha_price] calls_a]. simpl in Hhist.
  rewrite get_yahoo_finance_data_spec.
  destruct alpha_price as [a|]; [|by left].
  destruct (match yahoo_finance e with
            | Quote price =>
                if _validate_price (Number price) "Yahoo Finance" symbol
                then as_price price else None
            | _ => None
            end) as [y|]; [|by left].
  destruct (_cross_validate_prices self1 a y symbol); simpl; [|by left].
  right. rewrite (calculate_analytics_history self self1 symbol Hhist), Hhist.
  split.
  - by destruct (moving_average (_calculate_analytics np_sqrt self symbol)),
               (volatility (_calculate_analytics np_sqrt self symbol)).
  - exists a, y.
    by destruct (moving_average (_calculate_analytics np_sqrt self symbol)),
               (volatility (_calculate_analytics np_sqrt self symbol)).
Qed.

Lemma store_length (history : list ComparisonRecord) (r : ComparisonRecord) :
  (length (store history r) ≤ 1000)%nat.
Proof.
  unfold store. destruct (1000 <? length (history ++ [r]))%nat eqn:Hlen.
  - rewrite tail_length. lia.
  - by apply Nat.ltb_ge in Hlen.
Qed.

Lemma store_below_cap (history : list ComparisonRecord) (r : ComparisonRecord) :
  (length history < 1000)%nat → store history r = history ++ [r].
Proof.
  intros Hlen. unfold store.
  assert ((1000 <? length (history ++ [r]))%nat = false) as ->; [|done].
  apply Nat.ltb_ge. rewrite length_app. simpl. lia.
Qed.

Lemma store_at_cap (history : list ComparisonRecord) (r : ComparisonRecord) :
  length history = 1000%nat → store history r = drop 1 history ++ [r].
Proof.
  intros Hlen. unfold store.
  assert ((1000 <? length (history ++ [r]))%nat = true) as ->.
  { apply Nat.ltb_lt. rewrite length_app. simpl. lia. }
  apply tail_snoc_full; [lia|done].
Qed.

Lemma store_last (history : list ComparisonRecord) (r : ComparisonRecord) :
  last (store history r) = Some r.
Proof.
  unfold store, tail. destruct (1000 <? length (history ++ [r]))%nat.
  - rewrite length_app. simpl.
    replace (length history + 1 - 1000)%nat with (length history - 999)%nat by lia.
    rewrite drop_app_le by lia. apply last_snoc.
  - apply last_snoc.
Qed.

Lemma cycle_capped (self : t) (c : env * string) :
  (length (price_history self) ≤ 1000)%nat →
  (length (price_history (cycle np_sqrt self c)) ≤ 1000)%nat.
Proof.
  intros Hlen. unfold cycle.
  destruct (get_price_comparison_cases self c.1 c.2) as [[_ ->] | [_ (a & y & ->)]];
    [done|apply store_length].
Qed.

Lemma run_capped (cycles : list (env * string)) : ∀ self,
  (length (price_history self) ≤ 1000)%nat →
  (length (price_history (run np_sqrt self cycles)) ≤ 1000)%nat.
Proof.
  induction cycles as [|c cycles IH]; intros self Hlen; [done|].
  simpl. apply IH. by apply cycle_capped.
Qed.

End Cycle.

(** ** The claims about fetching *)

(** C2. The validator rejects a raw value exactly when it is missing,
    non-numeric, zero, negative or non-finite, and accepts every positive
    finite number, which the calling fetcher then returns as the price.
    It is a function of its arguments alone: it raises nothing and has no
    state to change; the fetcher that receives a rejection returns [None]
    and leaves its own state as it was. *)
Theorem validate_price_contract (raw : raw_value) (source_label symbol : string) :
  (_validate_price raw source_label symbol = false
   ↔ is_missing raw ∨ is_non_numeric raw ∨ is_zero raw ∨ is_negative raw
     ∨ is_non_finite raw)
  ∧ (∀ q, raw = Number (Finite q) → 0 < q →
       _validate_price raw source_label symbol = true
       ∧ (∀ self, (get_yahoo_finance_data self (Quote (Finite q)) symbol).1
                  = (self, Some q))
       ∧ (∀ self now, ¬ fetched_recently self now symbol →
            (get_alpha_vantage_data self now (Quote (Finite q)) symbol).1.2 = Some q))
  ∧ (∀ x, raw = Number x → _validate_price raw source_label symbol = false →
       (∀ self, (get_yahoo_finance_data self (Quote x) symbol).1 = (self, None))
       ∧ (∀ self now, ¬ fetched_recently self now symbol →
            (get_alpha_vantage_data self now (Quote x) symbol).1 = (self, None))).
Proof.
  assert (Hmiss : ∀ self now, ¬ fetched_recently self now symbol →
            match last_fetch_time self !! symbol with
            | Some last => bool_decide (now - last < seconds 12)%Z
            | None => false
            end = false).
  { intros self now Hnot. destruct (last_fetch_time self !! symbol) as [last|] eqn:Hl;
      [|done]. apply bool_decide_eq_false_2. intros Hlt. apply Hnot. by exists last. }
  split_and!.
  - unfold is_missing, is_non_numeric, is_zero, is_negative, is_non_finite. split.
    + destruct raw as [|text|[q|negative|]]; simpl.
      * by left.
      * right; left. by exists text.
      * intros Hle%negb_false_iff%Qle_bool_iff.
        destruct (Qlt_le_dec q 0) as [Hneg|Hnonneg].
        -- do 3 right; left. left. by exists q.
        -- do 2 right; left. exists q. split; [done|]. by apply Qle_antisym.
      * do 4 right. left. by exists negative.
      * do 4 right. by right.
    + intros [-> | [[text ->] | [(q & -> & Hq) | [[(q & -> & Hq) | ->] | [[n ->] | ->]]]]];
        simpl; try done.
      * apply negb_false_iff, Qle_bool_iff. rewrite Hq. apply Qle_refl.
      * apply negb_false_iff, Qle_bool_iff. by apply Qlt_le_weak.
  - intros q -> Hq.
    assert (Hok : ∀ label, _validate_price (Number (Finite q)) label symbol = true).
    { intros label. apply validate_price_accepts. by exists q. }
    split_and!; [apply Hok| |].
    + intros self. rewrite get_yahoo_finance_data_spec. by rewrite Hok.
    + intros self now Hnot. unfold get_alpha_vantage_data.
      rewrite (Hmiss self now Hnot). by rewrite Hok.
  - intros x -> Hrej.
    assert (Hno : ∀ label, _validate_price (Number x) label symbol = false) by done.
    split.
    + intros self. rewrite get_yahoo_finance_data_spec. by rewrite Hno.
    + intros self now Hnot. unfold get_alpha_vantage_data.
      rewrite (Hmiss self now Hnot). by rewrite Hno.
Qed.

Lemma validate_price_contract_witness :
  0 < 100.8
  ∧ _validate_price (Number (Finite 100.8)) "Yahoo Finance" "XYZ" = true
  ∧ (get_yahoo_finance_data init (Quote (Finite 100.8)) "XYZ").1 = (init, Some 100.8).
Proof.
  assert (Hpos : 0 < 100.8) by (vm_compute; reflexivity).
  destruct (proj1 (proj2 (validate_price_contract (Number (Finite 100.8))
                            "Yahoo Finance" "XYZ")) 100.8 eq_refl Hpos)
    as (Haccept & Hyahoo & _).
  split; [exact Hpos|]. split; [exact Haccept|exact (Hyahoo init)].
Defined.

(** C1, as stated, fails for source B: twelve seconds have not passed
    since the last fetch of XYZ and its last record holds 100.80 for
    source B, yet [get_yahoo_finance_data] makes its request and returns
    what the provider answers. *)
Lemma yahoo_fetch_is_never_cached :
  ¬ (∀ (self : t) (now : datetime) (symbol : string) (provider_A provider_B : reply),
       fetched_recently self now symbol →
       get_alpha_vantage_data self now provider_A symbol
       = (self, Alpha_Vantage_Price <$> last (symbol_rows self symbol), [])
       ∧ get_yahoo_finance_data self provider_B symbol
         = (self, Yahoo_Finance_Price <$> last (symbol_rows self symbol), [])).
Proof.
  intros Hclaim.
  destruct (Hclaim after_xyz (seconds 5) "XYZ" Raises (Quote (Finite 101))) as [_ Hyahoo].
  - exists (seconds 0). split; [by vm_compute|]. by vm_compute.
  - rewrite get_yahoo_finance_data_spec in Hyahoo.
    apply (f_equal snd) in Hyahoo. discriminate Hyahoo.
Qed.

(** C1, amended. When less than twelve seconds have passed since
    [last_fetch_time[symbol]], the fetch of source A makes no request and
    changes nothing; it returns the source-A price of the last record of
    the history, which is the last record for the symbol whenever that
    record is for the symbol, and it returns [None] when the history is
    empty.  The fetch of source B has no such path: it makes its request
    in every cycle and its result is that of the provider's answer. *)
Theorem alpha_fetch_cached_yahoo_fetch_live
    (self : t) (now : datetime) (symbol : string) :
  fetched_recently self now symbol →
  (∀ provider,
     (get_alpha_vantage_data self now provider symbol).2 = []
     ∧ (get_alpha_vantage_data self now provider symbol).1.1 = self
     ∧ (∀ r, last (price_history self) = Some r → Symbol r = symbol →
          last (symbol_rows self symbol) = Some r
          ∧ (get_alpha_vantage_data self now provider symbol).1.2
            = Some (Alpha_Vantage_Price r))
     ∧ (price_history self = [] →
          (get_alpha_vantage_data self now provider symbol).1.2 = None))
  ∧ (∀ provider,
       (get_yahoo_finance_data self provider symbol).2 = [YahooFinance_history symbol]
       ∧ (get_yahoo_finance_data self provider symbol).1.1 = self
       ∧ (get_yahoo_finance_data self provider symbol).1.2
         = match provider with
           | Quote price =>
               if _validate_price (Number price) "Yahoo Finance" symbol
               then as_price price else None
           | _ => None
           end).
Proof.
  intros Hrecent. split.
  - intros provider. rewrite get_alpha_vantage_data_cached by done. simpl.
    split_and!; try done.
    + intros r Hlast Hsym. rewrite Hlast. split; [|done].
      unfold symbol_rows.
      destruct (price_history self) as [|r0 rows _] using rev_ind; [done|].
      rewrite last_snoc in Hlast. injection Hlast as ->.
      rewrite filter_app, filter_cons_True, filter_nil by done. apply last_snoc.
    + by intros ->.
  - intros provider. by rewrite get_yahoo_finance_data_spec.
Qed.

Lemma alpha_fetch_cached_yahoo_fetch_live_witness :
  fetched_recently after_xyz (seconds 5) "XYZ"
  ∧ (get_alpha_vantage_data after_xyz (seconds 5) (Quote (Finite 101)) "XYZ").2 = []
  ∧ (get_yahoo_finance_data after_xyz (Quote (Finite 101)) "XYZ").2
    = [YahooFinance_history "XYZ"].
Proof.
  assert (Hrecent : fetched_recently after_xyz (seconds 5) "XYZ").
  { exists (seconds 0). split; [by vm_compute|]. by vm_compute. }
  destruct (alpha_fetch_cached_yahoo_fetch_live after_xyz (seconds 5) "XYZ" Hrecent)
    as [Halpha Hyahoo].
  split; [exact Hrecent|]. split.
  - exact (proj1 (Halpha (Quote (Finite 101)))).
  - exact (proj1 (Hyahoo (Quote (Finite 101)))).
Defined.

Example cached_alpha_price :
  get_alpha_vantage_data after_xyz (seconds 5) (Quote (Finite 101)) "XYZ"
  = (after_xyz, Some 100, []).
Proof. vm_compute. reflexivity. Qed.

Example live_yahoo_price :
  (get_yahoo_finance_data after_xyz (Quote (Finite 101)) "XYZ").1.2 = Some 101.
Proof. vm_compute. reflexivity. Qed.

(** ** Cross-validation *)

Lemma Qgt_bool_false (a b : Q) : Qgt_bool a b = false ↔ a <= b.
Proof. unfold Qgt_bool. by rewrite negb_false_iff, Qle_bool_iff. Qed.

Lemma to_float_nonneg (q : Q) :
  0 <= q → to_float q = Finite (round64 q) ∨ to_float q = Infinity false.
Proof.
  intros Hq. unfold to_float.
  destruct (Qle_bool (Qabs (round64 q)) max_float); [by left|right].
  apply Qle_bool_iff in Hq. by rewrite Hq.
Qed.

Lemma float_abs_to_float (q : Q) :
  (∃ a, 0 <= a ∧ float_abs (to_float q) = Finite a)
  ∨ float_abs (to_float q) = Infinity false.
Proof.
  unfold to_float.
  destruct (Qle_bool (Qabs (round64 q)) max_float); [left|by right].
  eexists. split; [|done]. apply Qabs_nonneg.
Qed.

(** The spread of two positive prices is a number or the positive
    infinity. *)
Lemma relative_spread_positive (price_A price_B : Q) :
  0 < price_A → 0 < price_B →
  (∃ spread, relative_spread price_A price_B = Finite spread)
  ∨ relative_spread price_A price_B = Infinity false.
Proof.
  intros HA HB.
  assert (Hmin : 0 < Qmin price_A price_B) by (by apply Q.min_glb_lt).
  assert (Hzero : Qeq_bool (Qmin price_A price_B) 0 = false).
  { destruct (Qeq_bool (Qmin price_A price_B) 0) eqn:Hz; [|done].
    apply Qeq_bool_iff in Hz. rewrite Hz in Hmin. by apply Qlt_irrefl in Hmin. }
  assert (Hsign : sign_bit (Qmin price_A price_B) = false).
  { unfold sign_bit. apply Qlt_le_weak, Qle_bool_iff in Hmin. by rewrite Hmin. }
  unfold relative_spread. cbn [float_sub].
  destruct (float_abs_to_float (price_A - price_B)) as [(a & Ha & ->)| ->].
  - cbn [float_div]. rewrite Hzero.
    destruct (to_float_nonneg (a / Qmin price_A price_B)) as [-> | ->];
      [|by left; eexists|by right].
    apply Qle_shift_div_l; [done|]. by rewrite Qmult_0_l.
  - cbn [float_div]. rewrite Hsign. by right.
Qed.

(** C6. For positive prices and any history, with the spread, the means
    and the deviations evaluated in binary64 as the code evaluates them
    and 0.20 and 0.10 the floats nearest to them: the spread is not above
    0.20 exactly when it is a number that is at most 0.20, and it is then
    accepted whatever the history; a larger spread is accepted when the
    symbol has no record; and when it has one, with [avg_A] and [avg_B]
    the means of the two price columns over its last up to five records,
    a larger spread is rejected exactly when the price of source A
    deviates from [avg_A] by more than 0.10 or the price of source B from
    [avg_B] by more than 0.10. *)
Theorem cross_validate_prices_spec
    (self : t) (price_A price_B : Q) (symbol : string) :
  0 < price_A → 0 < price_B →
  let avg_A := float_mean (Alpha_Vantage_Price <$> tail 5 (symbol_rows self symbol)) in
  let avg_B := float_mean (Yahoo_Finance_Price <$> tail 5 (symbol_rows self symbol)) in
  (¬ exceeds (relative_spread price_A price_B) 0.2
     ↔ ∃ spread, relative_spread price_A price_B = Finite spread
                 ∧ spread <= round64 0.2)
  ∧ (¬ exceeds (relative_spread price_A price_B) 0.2 →
       _cross_validate_prices self price_A price_B symbol = true)
  ∧ (exceeds (relative_spread price_A price_B) 0.2 → symbol_rows self symbol = [] →
       _cross_validate_prices self price_A price_B symbol = true)
  ∧ (exceeds (relative_spread price_A price_B) 0.2 → symbol_rows self symbol ≠ [] →
       (_cross_validate_prices self price_A price_B symbol = false
        ↔ exceeds (relative_deviation price_A avg_A) 0.1
          ∨ exceeds (relative_deviation price_B avg_B) 0.1)).
Proof.
  intros HA HB avg_A avg_B. subst avg_A avg_B.
  pose proof (relative_spread_positive price_A price_B HA HB) as Hspread.
  unfold exceeds, relative_deviation, _cross_validate_prices.
  fold (relative_spread price_A price_B).
  generalize dependent (relative_spread price_A price_B).
  generalize (round64 0.2) (round64 0.1). intros limit_spread limit_deviation.
  intros spread Hspread.
  split_and!.
  - destruct Hspread as [[x ->] | ->]; cbn [float_gt negb].
    + rewrite not_true_iff_false, Qgt_bool_false. split.
      * intros Hle. by exists x.
      * by intros (x' & [= <-] & Hle).
    + split; [done|]. by intros (x' & ? & _).
  - intros Hsmall%not_true_is_false. by rewrite Hsmall.
  - intros Hlarge Hnone. rewrite Hlarge, Hnone.
    by destruct (empty (price_history self)).
  - intros Hlarge Hsome. rewrite Hlarge.
    assert (Htail : tail 5 (symbol_rows self symbol) ≠ []).
    { intros Hnil. apply Hsome. apply (tail_nil_inv 5); [lia|done]. }
    assert (empty (price_history self) = false) as ->.
    { destruct (price_history self) as [|r0 rows] eqn:Hhist; [|done].
      exfalso. apply Hsome. unfold symbol_rows. by rewrite Hhist. }
    assert (empty (tail 5 (symbol_rows self symbol)) = false) as ->
      by (by destruct (tail 5 (symbol_rows self symbol))).
    cbn [negb]. cbv zeta.
    destruct (float_gt (float_div (float_abs (float_sub (Finite price_A) _)) _)
                       limit_deviation),
             (float_gt (float_div (float_abs (float_sub (Finite price_B) _)) _)
                       limit_deviation);
      cbn [andb]; intuition congruence.
Qed.

(** Source A at 1.1 against an average of 1.0, source B at 1.5: in
    binary64 the deviation of source A is above 0.1 and the pair is
    rejected. *)
Lemma cross_validate_prices_spec_witness :
  0 < round64 1.1 ∧ 0 < round64 1.5
  ∧ exceeds (relative_spread (round64 1.1) (round64 1.5)) 0.2
  ∧ _cross_validate_prices (one_row "XYZ" 1 (round64 1.5))
      (round64 1.1) (round64 1.5) "XYZ" = false.
Proof.
  assert (HA : 0 < round64 1.1) by (vm_compute; reflexivity).
  assert (HB : 0 < round64 1.5) by (vm_compute; reflexivity).
  assert (Hlarge : exceeds (relative_spread (round64 1.1) (round64 1.5)) 0.2)
    by (vm_compute; reflexivity).
  split; [exact HA|]. split; [exact HB|]. split; [exact Hlarge|].
  apply (proj2 (proj2 (proj2
           (cross_validate_prices_spec (one_row "XYZ" 1 (round64 1.5))
              (round64 1.1) (round64 1.5) "XYZ" HA HB))) Hlarge).
  - vm_compute. discriminate.
  - left. vm_compute. reflexivity.
Defined.

(** The same test at 16.39 against an average of 14.9: the quotient is
    rounded to the float 0.1 itself, nothing is above the limit, and the
    pair is accepted although the spread is large. *)
Example deviation_at_the_limit :
  _cross_validate_prices (one_row "XYZ" (round64 14.9) (round64 20.5))
    (round64 16.39) (round64 20.5) "XYZ" = true.
Proof. vm_compute. reflexivity. Qed.

Example deviation_above_the_limit :
  _cross_validate_prices (one_row "XYZ" 1 (round64 1.5))
    (round64 1.1) (round64 1.5) "XYZ" = false.
Proof. vm_compute. reflexivity. Qed.

(** Five records whose prices add up beyond the largest float: both
    averages are infinite, both deviations are [NaN], which is above
    nothing, and the pair is accepted. *)
Example infinite_average_accepted :
  float_mean (Alpha_Vantage_Price <$>
                tail 5 (symbol_rows (five_rows "XYZ" (round64 1e308) (round64 1e308)) "XYZ"))
  = Infinity false
  ∧ relative_deviation 1 (Infinity false) = NaN
  ∧ _cross_validate_prices (five_rows "XYZ" (round64 1e308) (round64 1e308))
      1 2 "XYZ" = true.
Proof. split_and!; vm_compute; reflexivity. Qed.

(** A spread of a quarter against one record at 100 and 100.80: source B
    at 125 is more than a tenth off its average and the pair is
    rejected; the same pair is accepted for a symbol without history. *)
Example large_spread_rejected :
  _cross_validate_prices after_xyz 100 125 "XYZ" = false.
Proof. vm_compute. reflexivity. Qed.

Example large_spread_without_history :
  _cross_validate_prices after_xyz 100 125 "ABC" = true.
Proof. vm_compute. reflexivity. Qed.

(** ** Analytics *)

Section Analytics.
Variable np_sqrt : Q → Q.

Lemma symbol_rows_length (self : t) (symbol : string) :
  (length (symbol_rows self symbol) ≤ length (price_history self))%nat.
Proof. unfold symbol_rows. apply length_filter. Qed.

Lemma calculate_analytics_few (self : t) (symbol : string) :
  (length (symbol_rows self symbol) < 2)%nat →
  _calculate_analytics np_sqrt self symbol = no_analytics.
Proof.
  intros Hfew. unfold _calculate_analytics.
  destruct (length (price_history self) <? 2)%nat; [done|].
  by apply Nat.ltb_lt in Hfew as ->.
Qed.

Lemma calculate_analytics_enough (self : t) (symbol : string) (s : list Q) :
  s = Difference <$> symbol_rows self symbol →
  (2 ≤ length s)%nat →
  _calculate_analytics np_sqrt self symbol
  = {| moving_average := series_mean (tail 5 s);
       volatility := series_std np_sqrt s;
       trend := Some (if is_monotonic_increasing (tail 5 s) then "increasing"
                      else if is_monotonic_decreasing (tail 5 s) then "decreasing"
                      else "fluctuating") |}.
Proof.
  intros -> Hlen. rewrite length_fmap in Hlen.
  pose proof (symbol_rows_length self symbol) as Hle.
  unfold _calculate_analytics.
  assert ((length (price_history self) <? 2)%nat = false) as -> by (apply Nat.ltb_ge; lia).
  assert ((length (symbol_rows self symbol) <? 2)%nat = false) as ->
    by (apply Nat.ltb_ge; lia).
  rewrite rolling_mean_last; [done|lia|].
  intros Hnil%fmap_nil_inv. rewrite Hnil in Hlen. simpl in Hlen. lia.
Qed.

Lemma series_mean_window (s : list Q) :
  s ≠ [] →
  series_mean (tail 5 s)
  = Some (series_sum (tail (5 `min` length s) s)
          / inject_Z (Z.of_nat (5 `min` length s))).
Proof.
  intros Hs. rewrite tail_min.
  assert (Hlen : length (tail 5 s) = (5 `min` length s)%nat) by apply tail_length.
  unfold series_mean, series_count.
  destruct (tail 5 s) as [|x w] eqn:Hw.
  - exfalso. apply Hs. apply (tail_nil_inv 5); [lia|done].
  - by rewrite Hlen.
Qed.

(** C7. With [s] the discrepancies of the symbol's records: for fewer
    than two of them every output is [None]; for two or more, the moving
    average is the arithmetic mean of the last [min 5 (length s)] of
    them, the volatility is the square root of the sum of squared
    deviations from the mean of all of them divided by their number less
    one, and the trend is "increasing" exactly when the last up to five
    never go down (so also when they are all equal), "decreasing" exactly
    when they go down somewhere and never go up, "fluctuating" otherwise;
    over the discrepancies 1, 2, 3, 4, 5, 6 the moving average is 4. *)
Theorem calculate_analytics_spec (self : t) (symbol : string) (s : list Q) :
  s = Difference <$> symbol_rows self symbol →
  ((length s < 2)%nat → _calculate_analytics np_sqrt self symbol = no_analytics)
  ∧ ((2 ≤ length s)%nat →
       moving_average (_calculate_analytics np_sqrt self symbol)
       = Some (series_sum (tail (5 `min` length s) s)
               / inject_Z (Z.of_nat (5 `min` length s)))
       ∧ volatility (_calculate_analytics np_sqrt self symbol)
         = Some (np_sqrt
                   (series_sum
                      ((λ x, (x - series_sum s / inject_Z (Z.of_nat (length s)))
                             * (x - series_sum s / inject_Z (Z.of_nat (length s))))
                         <$> s)
                    / (inject_Z (Z.of_nat (length s)) - 1)))
       ∧ (trend (_calculate_analytics np_sqrt self symbol) = Some "increasing"
          ↔ nondecreasing (tail 5 s))
       ∧ (trend (_calculate_analytics np_sqrt self symbol) = Some "decreasing"
          ↔ ¬ nondecreasing (tail 5 s) ∧ nonincreasing (tail 5 s))
       ∧ (trend (_calculate_analytics np_sqrt self symbol) = Some "fluctuating"
          ↔ ¬ nondecreasing (tail 5 s) ∧ ¬ nonincreasing (tail 5 s))
       ∧ ((∀ x y, x ∈ tail 5 s → y ∈ tail 5 s → x == y) →
            trend (_calculate_analytics np_sqrt self symbol) = Some "increasing"))
  ∧ (Forall2 Qeq s [1; 2; 3; 4; 5; 6] →
       ∃ m, moving_average (_calculate_analytics np_sqrt self symbol) = Some m
            ∧ m == 4).
Proof.
  intros Hs. split_and!.
  - intros Hfew. apply calculate_analytics_few. subst s.
    by rewrite length_fmap in Hfew.
  - intros Hlen. rewrite (calculate_analytics_enough self symbol s Hs Hlen). simpl.
    assert (Hne : s ≠ []) by (intros ->; simpl in Hlen; lia).
    rewrite <- is_monotonic_increasing_spec, <- is_monotonic_decreasing_spec.
    split_and!.
    + by apply series_mean_window.
    + unfold series_std, series_count.
      by assert ((length s <? 2)%nat = false) as -> by (apply Nat.ltb_ge; lia).
    + destruct (is_monotonic_increasing (tail 5 s)),
               (is_monotonic_decreasing (tail 5 s)); split; congruence.
    + destruct (is_monotonic_increasing (tail 5 s)),
               (is_monotonic_decreasing (tail 5 s)); split;
        (congruence || intuition congruence).
    + destruct (is_monotonic_increasing (tail 5 s)),
               (is_monotonic_decreasing (tail 5 s)); split;
        (congruence || intuition congruence).
    + intros Hflat.
      assert (is_monotonic_increasing (tail 5 s) = true) as ->; [|done].
      apply is_monotonic_increasing_spec. intros i j x y _ Hi Hj.
      apply Qle_lteq. right. apply Hflat; by eapply list_elem_of_lookup_2.
  - intros Hseq. pose proof (Forall2_length _ _ _ Hseq) as Hlen. simpl in Hlen.
    rewrite (calculate_analytics_enough self symbol s Hs) by lia. simpl.
    clear Hs.
    destruct s as [|x1 [|x2 [|x3 [|x4 [|x5 [|x6 [|x7 s]]]]]]]; try done.
    repeat match goal with
           | H : Forall2 Qeq (_ :: _) (_ :: _) |- _ =>
               apply Forall2_cons in H as [? H]
           end.
    eexists. split; [reflexivity|].
    unfold series_sum, series_count. simpl.
    repeat match goal with H : _ == _ |- _ => rewrite H; clear H end.
    reflexivity.
Qed.

End Analytics.

Lemma calculate_analytics_spec_witness :
  ∃ m, moving_average
         (_calculate_analytics newton_sqrt (with_differences "XYZ" [1; 2; 3; 4; 5; 6]) "XYZ")
       = Some m
       ∧ m == 4.
Proof.
  apply (calculate_analytics_spec newton_sqrt
           (with_differences "XYZ" [1; 2; 3; 4; 5; 6]) "XYZ" [1; 2; 3; 4; 5; 6]).
  - vm_compute. reflexivity.
  - repeat constructor.
Defined.

(** The three trends of the specification. *)
Example trend_increasing :
  trend (_calculate_analytics newton_sqrt (with_differences "XYZ" [1; 2; 2; 2; 3]) "XYZ")
  = Some "increasing".
Proof. vm_compute. reflexivity. Qed.

Example trend_decreasing :
  trend (_calculate_analytics newton_sqrt (with_differences "XYZ" [5; 4; 3; 2; 1]) "XYZ")
  = Some "decreasing".
Proof. vm_compute. reflexivity. Qed.

Example trend_fluctuating :
  trend (_calculate_analytics newton_sqrt (with_differences "XYZ" [1; 3; 2; 4; 1]) "XYZ")
  = Some "fluctuating".
Proof. vm_compute. reflexivity. Qed.

Example trend_flat :
  trend (_calculate_analytics newton_sqrt (with_differences "XYZ" [2; 2; 2]) "XYZ")
  = Some "increasing".
Proof. vm_compute. reflexivity. Qed.

(** ** The stored history *)

Section History.
Variable np_sqrt : Q → Q.

(** C9. The history never holds more than 1000 records: not after any
    sequence of cycles from the initial state, and a cycle does not take
    a history over the cap.  A cycle that stores a record into a history
    of exactly 1000 drops the oldest record and only that one, and the
    records that remain keep their order, followed by the new one; a
    cycle that stores nothing leaves the history as it was. *)
Theorem price_history_capped (self : t) (e : env) (symbol : string) :
  (∀ cycles, (length (price_history (run np_sqrt init cycles)) ≤ 1000)%nat)
  ∧ ((length (price_history self) ≤ 1000)%nat →
       (length (price_history (get_price_comparison np_sqrt self e symbol).1.1) ≤ 1000)%nat)
  ∧ (length (price_history self) = 1000%nat →
       (get_price_comparison np_sqrt self e symbol).1.2 ≠ null_comparison →
       ∃ oldest rest r,
         price_history self = oldest :: rest
         ∧ price_history (get_price_comparison np_sqrt self e symbol).1.1 = rest ++ [r]
         ∧ Symbol r = symbol ∧ Timestamp r = clock_record e)
  ∧ ((get_price_comparison np_sqrt self e symbol).1.2 = null_comparison →
       price_history (get_price_comparison np_sqrt self e symbol).1.1
       = price_history self).
Proof.
  split_and!.
  - intros cycles. apply run_capped. simpl. lia.
  - intros Hlen. apply (cycle_capped np_sqrt self (e, symbol) Hlen).
  - intros Hfull Hstored.
    destruct (get_price_comparison_cases np_sqrt self e symbol)
      as [[Hnull _] | [_ (a & y & ->)]]; [done|].
    rewrite store_at_cap by done.
    destruct (price_history self) as [|oldest rest]; [done|].
    eexists oldest, rest, _. simpl. rewrite drop_0. done.
  - intros Hnull.
    by destruct (get_price_comparison_cases np_sqrt self e symbol)
      as [[_ ->] | [Hstored _]].
Qed.


End History.

Lemma price_history_capped_witness :
  length (price_history full_history) = 1000%nat
  ∧ ∃ oldest rest r,
      price_history full_history = oldest :: rest
      ∧ price_history
          (get_price_comparison newton_sqrt full_history (quotes 0 100 100.8) "XYZ").1.1
        = rest ++ [r]
      ∧ Symbol r = "XYZ" ∧ Timestamp r = clock_record (quotes 0 100 100.8).
Proof.
  assert (Hfull : length (price_history full_history) = 1000%nat)
    by (vm_compute; reflexivity).
  split; [exact Hfull|].
  apply (price_history_capped newton_sqrt full_history (quotes 0 100 100.8) "XYZ").
  - exact Hfull.
  - vm_compute. discriminate.
Defined.


(** Three cycles for one symbol, twenty seconds apart: the first two
    records carry no analytics, the third carries the mean of the two
    discrepancies before it. *)
Example first_three_records :
  Moving_Average <$>
    price_history (run newton_sqrt init
      [(quotes 0 100 100.8, "XYZ"); (quotes 20 100 100.8, "XYZ");
       (quotes 40 100 101, "XYZ")])
  = [None; None; Some (1600000 # 2000000)].
Proof. vm_compute. reflexivity. Qed.

(** The cycles that store the first two records of a symbol end in the
    [TypeError] of the log line; the third returns the comparison. *)
Example first_cycle_raises :
  (get_price_comparison newton_sqrt init (quotes 0 100 100.8) "XYZ").1.2
  = Raised "TypeError".
Proof. vm_compute. reflexivity. Qed.

Example third_cycle_returns :
  (get_price_comparison newton_sqrt
     (run newton_sqrt init [(quotes 0 100 100.8, "XYZ"); (quotes 20 100 100.8, "XYZ")])
     (quotes 40 100 101) "XYZ").1.2
  = Returned (Some 100, Some 101, Some 1.00).
Proof. vm_compute. reflexivity. Qed.

End DataFetcherFacts.

(** * Properties of the aggregates *)

Module PandasAggregatesFacts.
Import Pandas PandasFacts PandasAggregates.
Local Open Scope Q_scope.

Lemma foldl_Qmax_upper (s : list Q) : ∀ x,
  x <= foldl Qmax x s ∧ Forall (λ y, y <= foldl Qmax x s) s.
Proof.
  induction s as [|a s IH]; intros x; simpl.
  - split; [apply Qle_refl|constructor].
  - destruct (IH (Qmax x a)) as [Hinit Hrest]. split_and!.
    + eapply Qle_trans; [apply Q.le_max_l|exact Hinit].
    + constructor; [|done]. eapply Qle_trans; [apply Q.le_max_r|exact Hinit].
Qed.

Lemma foldl_Qmin_lower (s : list Q) : ∀ x,
  foldl Qmin x s <= x ∧ Forall (λ y, foldl Qmin x s <= y) s.
Proof.
  induction s as [|a s IH]; intros x; simpl.
  - split; [apply Qle_refl|constructor].
  - destruct (IH (Qmin x a)) as [Hinit Hrest]. split_and!.
    + eapply Qle_trans; [exact Hinit|apply Q.le_min_l].
    + constructor; [|done]. eapply Qle_trans; [exact Hinit|apply Q.le_min_r].
Qed.

(** The maximum and the minimum are entries of the series. *)
Lemma foldl_Qmax_elem (s : list Q) : ∀ x, foldl Qmax x s ∈ x :: s.
Proof.
  induction s as [|a s IH]; intros x; simpl; [by left|].
  specialize (IH (Qmax x a)).
  apply elem_of_cons in IH as [-> | Hin]; [|by do 2 right].
  unfold Qmax, GenericMinMax.gmax. destruct (x ?= a); [by left|right; by left|by left].
Qed.

Lemma foldl_Qmin_elem (s : list Q) : ∀ x, foldl Qmin x s ∈ x :: s.
Proof.
  induction s as [|a s IH]; intros x; simpl; [by left|].
  specialize (IH (Qmin x a)).
  apply elem_of_cons in IH as [-> | Hin]; [|by do 2 right].
  unfold Qmin, GenericMinMax.gmin. destruct (x ?= a); [by left|by left|right; by left].
Qed.

Lemma series_max_elem (s : list Q) (hi : Q) : series_max s = Some hi → hi ∈ s.
Proof. destruct s as [|x s]; [done|]. intros [= <-]. apply foldl_Qmax_elem. Qed.

Lemma series_min_elem (s : list Q) (lo : Q) : series_min s = Some lo → lo ∈ s.
Proof. destruct s as [|x s]; [done|]. intros [= <-]. apply foldl_Qmin_elem. Qed.

Lemma series_max_upper (s : list Q) (hi : Q) :
  series_max s = Some hi → Forall (λ x, x <= hi) s.
Proof.
  destruct s as [|x s]; [done|]. intros [= <-].
  destruct (foldl_Qmax_upper s x). by constructor.
Qed.

Lemma series_min_lower (s : list Q) (lo : Q) :
  series_min s = Some lo → Forall (λ x, lo <= x) s.
Proof.
  destruct s as [|x s]; [done|]. intros [= <-].
  destruct (foldl_Qmin_lower s x). by constructor.
Qed.

Lemma nunique_bounds (s : list string) :
  (nunique s ≤ length s)%nat ∧ (s ≠ [] → 1 ≤ nunique s)%nat.
Proof.
  unfold nunique. split.
  - induction s as [|x s IH]; simpl; [done|]. case_decide; simpl; lia.
  - intros Hne. destruct s as [|x s]; [done|].
    assert (x ∈ remove_dups (x :: s)) as Hin by (apply elem_of_remove_dups; by left).
    destruct (remove_dups (x :: s)); [by apply elem_of_nil in Hin|simpl; lia].
Qed.

End PandasAggregatesFacts.

(** * More properties of the alert system *)

Module AlertSystemMore.
Import Time Pandas PandasFacts PandasAggregates AlertSystem AlertSystemFacts AlertSystemReports.

(** ** When an alert is sent *)

Lemma validate_passes_iff (self : t) (now : datetime) (symbol : string) (d : Q) :
  (_validate_alert_conditions self now symbol d).1 = true
  ↔ ¬ in_cooldown self now symbol
    ∧ (threshold self < Qabs d)%Q
    ∧ (length (recent_alerts self now symbol) < 5)%nat.
Proof.
  destruct (in_cooldown_or_not self now symbol) as [Hin|Hout].
  { rewrite validate_in_cooldown by done. simpl. split; [done|tauto]. }
  rewrite validate_out_of_cooldown by done.
  destruct (Qle_bool (Qabs d) (threshold self)) eqn:Hle.
  { simpl. split; [done|]. intros (_ & Hlt & _).
    apply Qle_bool_iff in Hle. by apply Qlt_not_le in Hlt. }
  assert (threshold self < Qabs d)%Q as Hlt.
  { apply Qnot_le_lt. intros H%Qle_bool_iff. congruence. }
  case_bool_decide as Hn; simpl.
  - split; [done|]. intros (_ & _ & Hfew). lia.
  - split; [|done]. intros _. split_and!; [done..|lia].
Qed.

(** X1. [send_alert] returns [True] exactly when the symbol is out of
    its cooldown, the discrepancy is above the threshold, fewer than five
    rows of the symbol lie in the last hour, and the delivery succeeds.
    It then adds one row, with the symbol, the discrepancy and the time
    of sending, and sets the entry of that symbol alone in
    [last_alert_time]; when it returns [False] the state is untouched. *)
Theorem send_alert_sent_iff
    (self : t) (e : env) (symbol : string) (a y d : Q) :
  ((send_alert self e symbol a y d).2 = true
   ↔ ¬ in_cooldown self (clock_validate e) symbol
     ∧ (threshold self < Qabs d)%Q
     ∧ (length (recent_alerts self (clock_validate e) symbol) < 5)%nat
     ∧ smtp_delivers e = true)
  ∧ ((send_alert self e symbol a y d).2 = true →
       alert_history (send_alert self e symbol a y d).1
       = alert_history self
           ++ [{| Timestamp := clock_send e; Symbol := symbol; Discrepancy := d;
                  Alert_Sent := true; Alert_Type := "threshold_exceeded" |}]
       ∧ last_alert_time (send_alert self e symbol a y d).1 !! symbol
         = Some (clock_send e)
       ∧ (∀ other, other ≠ symbol →
            last_alert_time (send_alert self e symbol a y d).1 !! other
            = last_alert_time self !! other)
       ∧ threshold (send_alert self e symbol a y d).1 = threshold self
       ∧ alert_cooldown (send_alert self e symbol a y d).1 = alert_cooldown self)
  ∧ ((send_alert self e symbol a y d).2 = false →
       (send_alert self e symbol a y d).1 = self).
Proof.
  split_and!.
  - split.
    + destruct (send_alert_cases self e symbol a y d) as [-> | (Hpass & Hok & _)];
        [done|]. intros _.
      apply validate_passes_iff in Hpass as (Hout & Habove & Hfew). done.
    + intros (Hout & Habove & Hfew & Hok).
      assert (Hpass : (_validate_alert_conditions self (clock_validate e) symbol d).1 = true)
        by (by apply validate_passes_iff).
      unfold send_alert.
      destruct (_validate_alert_conditions self (clock_validate e) symbol d)
        as [passed reason]. simpl in Hpass. subst passed. simpl.
      by rewrite Hok.
  - destruct (send_alert_cases self e symbol a y d) as [-> | (_ & _ & ->)];
      simpl; [done|]. intros _. split_and!; try done.
    + apply lookup_insert_eq.
    + intros other Hne. by apply lookup_insert_ne.
  - by destruct (send_alert_cases self e symbol a y d) as [-> | (_ & _ & ->)].
Qed.

(** ** What a sequence of calls keeps *)

Lemma step_cases (self : t) (c : call) :
  step self c = self
  ∨ ((_validate_alert_conditions self (clock_validate (c_env c)) (c_symbol c)
        (c_difference c)).1 = true
     ∧ step self c =
         {| threshold := threshold self;
            alert_history :=
              alert_history self ++
                [{| Timestamp := clock_send (c_env c); Symbol := c_symbol c;
                    Discrepancy := c_difference c;
                    Alert_Sent := true; Alert_Type := "threshold_exceeded" |}];
            last_alert_time :=
              <[c_symbol c := clock_send (c_env c)]> (last_alert_time self);
            alert_cooldown := alert_cooldown self |}).
Proof.
  unfold step.
  destruct (send_alert_cases self (c_env c) (c_symbol c)
              (c_alpha_price c) (c_yahoo_price c) (c_difference c))
    as [-> | (Hpass & _ & ->)]; [by left|by right].
Qed.

Lemma run_invariant (P : t → Prop) :
  (∀ self c, P self → P (step self c)) →
  ∀ calls self, P self → P (run self calls).
Proof.
  intros Hstep calls. induction calls as [|c calls IH]; intros self HP; [done|].
  simpl. apply IH. by apply Hstep.
Qed.

Lemma threshold_step (self : t) (c : call) : threshold (step self c) = threshold self.
Proof. by destruct (step_cases self c) as [-> | [_ ->]]. Qed.

Lemma rows_above_threshold_step (self : t) (c : call) :
  rows_above_threshold self → rows_above_threshold (step self c).
Proof.
  intros Hrows. destruct (step_cases self c) as [-> | [Hpass ->]]; [done|].
  apply validate_passes_iff in Hpass as (_ & Habove & _).
  intros r [Hr | ->%list_elem_of_singleton]%elem_of_app; simpl.
  - by apply Hrows.
  - done.
Qed.

Lemma last_alert_is_latest_step (self : t) (c : call) :
  last_alert_is_latest self → last_alert_is_latest (step self c).
Proof.
  intros Hlatest. destruct (step_cases self c) as [-> | [_ ->]]; [done|].
  intros symbol. unfold alerts_of. simpl. rewrite filter_app.
  destruct (decide (c_symbol c = symbol)) as [<- | Hne].
  - rewrite lookup_insert_eq, filter_cons_True, filter_nil by done.
    by rewrite last_snoc.
  - rewrite lookup_insert_ne, filter_cons_False, filter_nil, app_nil_r by done.
    apply Hlatest.
Qed.

Lemma filter_length_mono {A} (P Q : A → Prop)
    `{∀ x, Decision (P x)} `{∀ x, Decision (Q x)} (l : list A) :
  (∀ x, P x → Q x) → (length (filter P l) ≤ length (filter Q l))%nat.
Proof.
  intros HPQ. induction l as [|x l IH]; [done|].
  destruct (decide (P x)) as [HP|HP].
  - rewrite (filter_cons_True P), (filter_cons_True Q) by auto. simpl. lia.
  - rewrite (filter_cons_False P) by done.
    destruct (decide (Q x)).
    + rewrite (filter_cons_True Q) by done. simpl. lia.
    + by rewrite (filter_cons_False Q).
Qed.

Lemma hourly_cap_step (self : t) (c : call) :
  clock_sane c → hourly_cap self → hourly_cap (step self c).
Proof.
  intros Hclock Hcap. destruct (step_cases self c) as [-> | [Hpass ->]]; [done|].
  apply validate_passes_iff in Hpass as (_ & _ & Hfew).
  unfold clock_sane in Hclock.
  intros j r Hj. simpl in *.
  apply lookup_app_Some in Hj as [Hj | [Hlen Hj]].
  - rewrite take_app_le by (apply lookup_lt_Some in Hj; lia). by apply Hcap.
  - apply list_lookup_singleton_Some in Hj as [Hj <-]. simpl.
    rewrite take_ge by (rewrite length_app; simpl; lia).
    rewrite filter_app, filter_cons_True, filter_nil
      by (split; [done|unfold hours; simpl; lia]).
    rewrite length_app. simpl.
    pose proof (filter_length_mono
      (λ r', Symbol r' = c_symbol c ∧ clock_send (c_env c) - hours 1 < Timestamp r')
      (λ r', Symbol r' = c_symbol c ∧ clock_validate (c_env c) - hours 1 < Timestamp r')
      (alert_history self)) as Hmono.
    unfold recent_alerts in Hfew.
    assert (∀ x : AlertRecord,
              Symbol x = c_symbol c ∧ clock_send (c_env c) - hours 1 < Timestamp x →
              Symbol x = c_symbol c ∧ clock_validate (c_env c) - hours 1 < Timestamp x)
      as Himp by (intros x [? ?]; split; [done|lia]).
    specialize (Hmono Himp). lia.
Qed.

(** X2. Whatever calls are made on a fresh [AlertSystem], every row of
    its history records a delivered alert of type "threshold_exceeded"
    whose discrepancy is above the threshold in absolute value; the
    threshold itself is never changed. *)
Theorem history_rows_above_threshold (threshold0 : Q) (calls : list call) :
  threshold (run (init threshold0) calls) = threshold0
  ∧ rows_above_threshold (run (init threshold0) calls).
Proof.
  split.
  - apply (run_invariant (λ self, threshold self = threshold0)); [|done].
    intros self c <-. apply threshold_step.
  - apply (run_invariant rows_above_threshold).
    + intros self c. apply rows_above_threshold_step.
    + intros r Hr. by apply elem_of_nil in Hr.
Qed.

(** X3. Whatever calls are made on a fresh [AlertSystem], the entry of a
    symbol in [last_alert_time] is the time of the latest row of that
    symbol in the history, and a symbol without a row has no entry. *)
Theorem last_alert_time_is_latest_row (threshold0 : Q) (calls : list call) :
  last_alert_is_latest (run (init threshold0) calls).
Proof.
  apply (run_invariant last_alert_is_latest).
  - intros self c. apply last_alert_is_latest_step.
  - intros symbol. done.
Qed.

(** X4. Whatever calls are made on a fresh [AlertSystem], the clock not
    running backwards inside a call: for every row, at most five rows of
    its symbol recorded so far (itself among them) lie in the hour that
    ends at its time. *)
Theorem at_most_five_rows_an_hour (threshold0 : Q) (calls : list call) :
  Forall clock_sane calls → hourly_cap (run (init threshold0) calls).
Proof.
  revert calls.
  assert (∀ calls self, Forall clock_sane calls → hourly_cap self →
            hourly_cap (run self calls)) as Hrun.
  { induction calls as [|c calls IH]; intros self Hclock Hcap; [done|].
    apply Forall_cons in Hclock as [Hc Hcs]. simpl.
    apply IH; [done|]. by apply hourly_cap_step. }
  intros calls Hclock. apply Hrun; [done|].
  intros j r Hj. simpl in Hj. by rewrite lookup_nil in Hj.
Qed.

Lemma at_most_five_rows_an_hour_witness :
  Forall clock_sane
    [xyz_call 0 true; xyz_call 10 true; xyz_call 20 true; xyz_call 30 true;
     xyz_call 40 true; xyz_call 50 true; xyz_call 60 true]
  ∧ hourly_cap
      (run (init default_threshold)
         [xyz_call 0 true; xyz_call 10 true; xyz_call 20 true; xyz_call 30 true;
          xyz_call 40 true; xyz_call 50 true; xyz_call 60 true]).
Proof.
  assert (Hclock : Forall clock_sane
    [xyz_call 0 true; xyz_call 10 true; xyz_call 20 true; xyz_call 30 true;
     xyz_call 40 true; xyz_call 50 true; xyz_call 60 true]).
  { repeat constructor; unfold clock_sane; simpl; lia. }
  split; [exact Hclock|].
  exact (at_most_five_rows_an_hour default_threshold _ Hclock).
Defined.

(** ** The statistics *)

Lemma returns_run (calls : list call) : ∀ (self : t) (results : list bool),
  foldl (λ acc c,
           let r := send_alert acc.1 (c_env c) (c_symbol c)
                      (c_alpha_price c) (c_yahoo_price c) (c_difference c) in
           (r.1, acc.2 ++ [r.2]))
        (self, results) calls
  = (run self calls, results ++ returns self calls).
Proof.
  induction calls as [|c calls IH]; intros self results.
  - unfold returns. simpl. by rewrite app_nil_r.
  - unfold returns. simpl. rewrite !IH. simpl. fold (step self c).
    by rewrite <- app_assoc.
Qed.

Lemma returns_cons (self : t) (c : call) (calls : list call) :
  returns self (c :: calls)
  = (send_alert self (c_env c) (c_symbol c)
       (c_alpha_price c) (c_yahoo_price c) (c_difference c)).2
    :: returns (step self c) calls.
Proof. unfold returns at 1. simpl. rewrite returns_run. done. Qed.

Lemma history_grows (calls : list call) : ∀ self,
  ∃ added,
    alert_history (run self calls) = alert_history self ++ added
    ∧ length added = count_sent (returns self calls).
Proof.
  induction calls as [|c calls IH]; intros self.
  - exists []. by rewrite app_nil_r.
  - rewrite returns_cons. simpl. destruct (IH (step self c)) as (added & -> & Hlen).
    assert (Hcases :
      ((send_alert self (c_env c) (c_symbol c)
          (c_alpha_price c) (c_yahoo_price c) (c_difference c)).2 = false
       ∧ alert_history (step self c) = alert_history self)
      ∨ ((send_alert self (c_env c) (c_symbol c)
            (c_alpha_price c) (c_yahoo_price c) (c_difference c)).2 = true
         ∧ ∃ row, alert_history (step self c) = alert_history self ++ [row])).
    { unfold step.
      destruct (send_alert_cases self (c_env c) (c_symbol c)
                  (c_alpha_price c) (c_yahoo_price c) (c_difference c))
        as [-> | (_ & _ & ->)]; [by left|right]. split; [done|]. by eexists. }
    destruct Hcases as [[-> ->] | [-> [row ->]]].
    + exists added. split; [done|].
      unfold count_sent. by rewrite filter_cons_False.
    + exists (row :: added). split.
      * by rewrite <- app_assoc.
      * unfold count_sent. rewrite filter_cons_True by done. simpl.
        unfold count_sent in Hlen. by rewrite Hlen.
Qed.

(** X5. No call ever removes or rewrites a row: the history after a
    sequence of calls is the history before it followed by one row for
    each call that returned [True]; so on a fresh [AlertSystem] the
    [total_alerts] of [get_alert_stats] is the number of calls that
    returned [True]. *)
Theorem total_alerts_counts_sent
    (pd_mean : list Q → option Q) (self : t) (calls : list call) (threshold0 : Q) :
  (∃ added,
     alert_history (run self calls) = alert_history self ++ added
     ∧ length added = count_sent (returns self calls))
  ∧ total_alerts (get_alert_stats pd_mean (run (init threshold0) calls))
    = count_sent (returns (init threshold0) calls).
Proof.
  split; [apply history_grows|].
  destruct (history_grows calls (init threshold0)) as (added & Hhist & Hlen).
  unfold get_alert_stats. rewrite Hhist. simpl.
  destruct added; simpl in *; congruence.
Qed.

(** X6. Without rows [get_alert_stats] reports zeros.  In any state with
    at least one row it reports the number of rows, a number of distinct
    symbols between one and the number of rows, the mean of the
    discrepancies as pandas computes it, and a maximum that is the
    discrepancy of one of the rows and is not below that of any row. *)
Theorem alert_stats_bounds (pd_mean : list Q → option Q) (self : t) :
  (alert_history self = [] →
     get_alert_stats pd_mean self
     = {| total_alerts := 0; unique_symbols := 0;
          avg_discrepancy := Some 0%Q; max_discrepancy := Some 0%Q |})
  ∧ (alert_history self ≠ [] →
       total_alerts (get_alert_stats pd_mean self) = length (alert_history self)
       ∧ (1 ≤ unique_symbols (get_alert_stats pd_mean self)
            ≤ total_alerts (get_alert_stats pd_mean self))%nat
       ∧ avg_discrepancy (get_alert_stats pd_mean self)
         = pd_mean (Discrepancy <$> alert_history self)
       ∧ ∃ top,
           max_discrepancy (get_alert_stats pd_mean self) = Some top
           ∧ (∃ r, r ∈ alert_history self ∧ Discrepancy r = top)
           ∧ (∀ r, r ∈ alert_history self → (Discrepancy r <= top)%Q)).
Proof.
  unfold get_alert_stats. split.
  - by intros ->.
  - intros Hne. destruct (alert_history self) as [|r0 rows] eqn:Hhist; [done|].
    cbn [empty total_alerts unique_symbols avg_discrepancy max_discrepancy].
    split; [done|]. split; [|split; [done|]].
    + pose proof (PandasAggregatesFacts.nunique_bounds (Symbol <$> r0 :: rows)) as [Hle Hge].
      rewrite length_fmap in Hle. split; [by apply Hge|done].
    + set (s := Discrepancy <$> r0 :: rows).
      assert (∃ top, series_max s = Some top) as [top Htop] by (by eexists).
      pose proof (PandasAggregatesFacts.series_max_upper s top Htop) as Hupper.
      exists top. split_and!; try done.
      * apply PandasAggregatesFacts.series_max_elem in Htop.
        apply list_elem_of_fmap in Htop as (r & -> & Hr). by exists r.
      * intros r Hr. rewrite Forall_forall in Hupper. apply Hupper.
        apply list_elem_of_fmap. by exists r.
Qed.

Lemma nunique_size (l : list string) :
  nunique l = size (list_to_set l : gset string).
Proof.
  unfold nunique.
  rewrite <- (size_list_to_set (C := gset string) (remove_dups l))
    by apply NoDup_remove_dups.
  f_equal. apply set_eq. intros x.
  by rewrite !elem_of_list_to_set, elem_of_remove_dups.
Qed.

Lemma tracked_symbols (self : t) :
  last_alert_is_latest self →
  dom (last_alert_time self) = list_to_set (Symbol <$> alert_history self).
Proof.
  intros Hlatest. apply set_eq. intros symbol.
  rewrite elem_of_dom, elem_of_list_to_set, Hlatest, fmap_is_Some, list_elem_of_fmap.
  unfold alerts_of. split.
  - intros [r Hr]. apply last_Some in Hr as [rows Hr].
    assert (r ∈ filter (λ r, Symbol r = symbol) (alert_history self)) as Hin.
    { rewrite Hr. apply elem_of_app. right. by left. }
    apply list_elem_of_filter in Hin as [Hsym Hin]. by exists r.
  - intros (r & -> & Hr). apply last_is_Some.
    intros Hnil.
    assert (r ∈ filter (λ r', Symbol r' = Symbol r) (alert_history self)) as Hin
      by (by apply list_elem_of_filter).
    rewrite Hnil in Hin. by apply elem_of_nil in Hin.
Qed.

(** X7. Whatever calls are made on a fresh [AlertSystem], the
    [unique_symbols] of [get_alert_stats] is the number of symbols that
    have an entry in [last_alert_time]: a symbol gets its entry with its
    first row and never loses it. *)
Theorem unique_symbols_are_tracked
    (pd_mean : list Q → option Q) (threshold0 : Q) (calls : list call) :
  unique_symbols (get_alert_stats pd_mean (run (init threshold0) calls))
  = size (dom (last_alert_time (run (init threshold0) calls))).
Proof.
  assert (Hlatest : last_alert_is_latest (run (init threshold0) calls)).
  { apply (run_invariant last_alert_is_latest).
    - intros self c. apply last_alert_is_latest_step.
    - intros symbol. done. }
  rewrite (tracked_symbols _ Hlatest), <- nunique_size.
  unfold get_alert_stats.
  by destruct (alert_history (run (init threshold0) calls)).
Qed.

(** ** Construction *)

Lemma split_commas_not_empty (s : string) : split_commas s ≠ [].
Proof.
  induction s as [|c s IH]; simpl; [done|].
  case_decide; [done|]. by destruct (split_commas s).
Qed.

(** X8. [AlertSystem()] raises exactly when the threshold is no number or
    [EMAIL_SENDER] or [EMAIL_PASSWORD] is unset or empty.  The recipients
    never stop it: the list that [split(',')] returns is never empty, so
    without [EMAIL_RECIPIENTS] the object is built with the one
    recipient ['']. *)
Theorem alert_system_construction
    (float : string → option Q) (environ : gmap string string) :
  ((∃ config self, __init__ float environ = DataFetcher.Returned (config, self))
   ↔ str_truthy (environ !! "EMAIL_SENDER") = true
     ∧ str_truthy (environ !! "EMAIL_PASSWORD") = true
     ∧ is_Some (float (default "0.5" (environ !! "DISCREPANCY_THRESHOLD"))))
  ∧ (∀ config self,
       __init__ float environ = DataFetcher.Returned (config, self) →
       recipients config ≠ []
       ∧ (environ !! "EMAIL_RECIPIENTS" = None → recipients config = [""])
       ∧ float (default "0.5" (environ !! "DISCREPANCY_THRESHOLD")) = Some (threshold self)
       ∧ alert_history self = [] ∧ last_alert_time self = ∅
       ∧ alert_cooldown self = minutes 5)
  ∧ ((¬ ∃ config self, __init__ float environ = DataFetcher.Returned (config, self)) →
       __init__ float environ = DataFetcher.Raised "ValueError").
Proof.
  unfold __init__, getenv, getenv_default, list_truthy.
  pose proof (split_commas_not_empty (default "" (environ !! "EMAIL_RECIPIENTS"))) as Hne.
  assert (Hfull :
    empty (split_commas (default "" (environ !! "EMAIL_RECIPIENTS"))) = false)
    by (by destruct (split_commas (default "" (environ !! "EMAIL_RECIPIENTS")))).
  rewrite Hfull. cbn [negb]. rewrite andb_true_r.
  destruct (float (default "0.5" (environ !! "DISCREPANCY_THRESHOLD"))) as [th|].
  - destruct (str_truthy (environ !! "EMAIL_SENDER")),
             (str_truthy (environ !! "EMAIL_PASSWORD")); simpl.
    + split_and!.
      * split; [by eauto|]. intros _. by eexists _, _.
      * intros config self [= <- <-]. simpl. split_and!; try done.
        by intros ->.
      * intros Hnot. exfalso. apply Hnot. by eexists _, _.
    + split_and!; [|done..]. split; [by intros (? & ? & ?)|]. by intros (_ & ? & _).
    + split_and!; [|done..]. split; [by intros (? & ? & ?)|]. by intros (? & _ & _).
    + split_and!; [|done..]. split; [by intros (? & ? & ?)|]. by intros (? & _ & _).
  - split_and!; [|done..]. split; [by intros (? & ? & ?)|].
    intros (_ & _ & [? ?]). done.
Qed.

End AlertSystemMore.

(** * More properties of the reconciler *)

Module DataFetcherMore.
Import Time Pandas PandasFacts PandasAggregates PandasAggregatesFacts.
Import DataFetcher DataFetcherFacts DataFetcherReports.
Local Open Scope Q_scope.

Lemma fetched_recently_or_not (self : t) (now : datetime) (symbol : string) :
  fetched_recently self now symbol ∨ ¬ fetched_recently self now symbol.
Proof.
  unfold fetched_recently.
  destruct (last_fetch_time self !! symbol) as [last|] eqn:Hlast.
  - destruct (decide (now - last < seconds 12)%Z) as [Hy|Hy].
    + left. by exists last.
    + right. intros (last' & [= <-] & Hy'). lia.
  - right. by intros (last' & [=] & _).
Qed.

(** The fetch of source A, case by case. *)
Lemma get_alpha_vantage_data_cases
    (self : t) (now : datetime) (provider : reply) (symbol : string) :
  (fetched_recently self now symbol
   ∧ get_alpha_vantage_data self now provider symbol
     = (self, Alpha_Vantage_Price <$> last (price_history self), []))
  ∨ (¬ fetched_recently self now symbol
     ∧ get_alpha_vantage_data self now provider symbol
       = (self, None, [AlphaVantage_quote symbol]))
  ∨ (¬ fetched_recently self now symbol
     ∧ ∃ price,
         provider = Quote price
         ∧ get_alpha_vantage_data self now provider symbol
           = ({| price_history := price_history self;
                 last_fetch_time := <[symbol := now]> (last_fetch_time self) |},
              as_price price, [AlphaVantage_quote symbol])).
Proof.
  destruct (fetched_recently_or_not self now symbol) as [Hin | Hout].
  { left. split; [done|]. by apply get_alpha_vantage_data_cached. }
  right. unfold get_alpha_vantage_data.
  assert (match last_fetch_time self !! symbol with
          | Some last => bool_decide (now - last < seconds 12)%Z
          | None => false
          end = false) as ->.
  { destruct (last_fetch_time self !! symbol) as [last|] eqn:Hl; [|done].
    apply bool_decide_eq_false_2. intros Hlt. apply Hout. by exists last. }
  destruct provider as [| |price]; [by left|by left|].
  destruct (_validate_price (Number price) "Alpha Vantage" symbol); [|by left].
  right. split; [done|]. by exists price.
Qed.

Section Cycle.
Variable np_sqrt : Q → Q.

(** The analytics are there exactly from the second earlier row on. *)
Lemma analytics_present (self : t) (symbol : string) :
  ((length (symbol_rows self symbol) < 2)%nat
   ∧ moving_average (_calculate_analytics np_sqrt self symbol) = None
   ∧ volatility (_calculate_analytics np_sqrt self symbol) = None
   ∧ trend (_calculate_analytics np_sqrt self symbol) = None)
  ∨ ((2 ≤ length (symbol_rows self symbol))%nat
     ∧ is_Some (moving_average (_calculate_analytics np_sqrt self symbol))
     ∧ is_Some (volatility (_calculate_analytics np_sqrt self symbol))
     ∧ is_Some (trend (_calculate_analytics np_sqrt self symbol))).
Proof.
  destruct (decide (length (symbol_rows self symbol) < 2)%nat) as [Hfew|Henough].
  - left. by rewrite calculate_analytics_few.
  - right. split; [lia|].
    rewrite (calculate_analytics_enough np_sqrt self symbol
               (Difference <$> symbol_rows self symbol) eq_refl)
      by (rewrite length_fmap; lia).
    simpl. split_and!; [| |done].
    + rewrite series_mean_window; [done|].
      intros Hnil%fmap_nil_inv. rewrite Hnil in Henough. simpl in Henough. lia.
    + unfold series_std. rewrite length_fmap.
      by assert ((length (symbol_rows self symbol) <? 2)%nat = false) as ->
        by (apply Nat.ltb_ge; lia).
Qed.

(** One cycle, in full: what the two fetches deliver decides everything
    else. *)
Lemma get_price_comparison_full (self : t) (e : env) (symbol : string) :
  ∃ self1 alpha calls_a,
    get_alpha_vantage_data self (clock_fetch e) (alpha_vantage e) symbol
    = (self1, alpha, calls_a)
    ∧ (get_price_comparison np_sqrt self e symbol).2
      = calls_a ++ [YahooFinance_history symbol]
    ∧ (((get_price_comparison np_sqrt self e symbol).1 = (self1, null_comparison))
       ∨ (∃ a y,
            alpha = Some a
            ∧ (get_price_comparison np_sqrt self e symbol).1.1
              = {| price_history :=
                     store (price_history self)
                       {| Timestamp := clock_record e;
                          Symbol := symbol;
                          Alpha_Vantage_Price := a;
                          Yahoo_Finance_Price := y;
                          Difference := Qabs (a - y) / a * 100;
                          Moving_Average :=
                            moving_average (_calculate_analytics np_sqrt self symbol);
                          Volatility :=
                            volatility (_calculate_analytics np_sqrt self symbol) |};
                   last_fetch_time := last_fetch_time self1 |}
            ∧ (get_price_comparison np_sqrt self e symbol).1.2
              = if decide (length (symbol_rows self symbol) < 2)%nat
                then Raised "TypeError"
                else Returned (Some a, Some y, Some (Qabs (a - y) / a * 100)))).
Proof.
  unfold get_price_comparison.
  pose proof (get_alpha_vantage_data_history self (clock_fetch e) (alpha_vantage e) symbol)
    as Hhist.
  destruct (get_alpha_vantage_data self (clock_fetch e) (alpha_vantage e) symbol)
    as [[self1 alpha] calls_a]. simpl in Hhist.
  exists self1, alpha, calls_a. split; [done|].
  rewrite get_yahoo_finance_data_spec.
  destruct alpha as [a|]; [|split; [done|by left]].
  destruct (match yahoo_finance e with
            | Quote price =>
                if _validate_price (Number price) "Yahoo Finance" symbol
                then as_price price else None
            | _ => None
            end) as [y|]; [|split; [done|by left]].
  destruct (_cross_validate_prices self1 a y symbol); cbn [negb];
    [|split; [done|by left]].
  rewrite (calculate_analytics_history np_sqrt self self1 symbol Hhist), Hhist.
  destruct (analytics_present self symbol) as [(Hfew & -> & -> & _) | (Hlen & [m ->] & [v ->] & _)].
  - split; [done|]. right. exists a, y. split; [done|]. split; [done|].
    by rewrite decide_True.
  - split; [done|]. right. exists a, y. split; [done|]. split; [done|].
    by rewrite decide_False by lia.
Qed.

End Cycle.

Section Outcomes.
Variable np_sqrt : Q → Q.

(** X9. A cycle ends in one of three ways.  It returns
    [(None, None, None)] and leaves the history as it was; or it stores a
    row for prices [a] and [y] and returns [(a, y, |a - y| / a * 100)],
    which it does when the symbol had at least two rows before; or it
    stores the row and then raises [TypeError], which it does when the
    symbol had fewer than two rows before, so for the first two rows of
    every symbol.  The returned triple is never partly [None]. *)
Theorem price_comparison_outcomes (self : t) (e : env) (symbol : string) :
  ((get_price_comparison np_sqrt self e symbol).1.2 = null_comparison
   ∧ price_history (get_price_comparison np_sqrt self e symbol).1.1 = price_history self)
  ∨ (∃ a y row,
       price_history (get_price_comparison np_sqrt self e symbol).1.1
       = store (price_history self) row
       ∧ Timestamp row = clock_record e ∧ Symbol row = symbol
       ∧ Alpha_Vantage_Price row = a ∧ Yahoo_Finance_Price row = y
       ∧ Difference row = Qabs (a - y) / a * 100
       ∧ (((2 ≤ length (symbol_rows self symbol))%nat
           ∧ (get_price_comparison np_sqrt self e symbol).1.2
             = Returned (Some a, Some y, Some (Qabs (a - y) / a * 100)))
          ∨ ((length (symbol_rows self symbol) < 2)%nat
             ∧ (get_price_comparison np_sqrt self e symbol).1.2 = Raised "TypeError"))).
Proof.
  destruct (get_price_comparison_full np_sqrt self e symbol)
    as (self1 & alpha & calls_a & Halpha & _ & [Hnull | (a & y & _ & Hstate & Hout)]).
  - left. rewrite Hnull. simpl. split; [done|].
    pose proof (get_alpha_vantage_data_history self (clock_fetch e) (alpha_vantage e) symbol)
      as Hhist. by rewrite Halpha in Hhist.
  - right. eexists a, y, _. rewrite Hstate, Hout. simpl. split_and!; try done.
    case_decide; [right|left]; split; (done || lia).
Qed.

(** X10. In every cycle exactly one request goes to Yahoo Finance, also
    when source A has failed; one request goes to Alpha Vantage before
    it, unless the symbol was fetched less than twelve seconds ago. *)
Theorem requests_of_a_cycle (self : t) (e : env) (symbol : string) :
  (fetched_recently self (clock_fetch e) symbol →
     (get_price_comparison np_sqrt self e symbol).2 = [YahooFinance_history symbol])
  ∧ (¬ fetched_recently self (clock_fetch e) symbol →
       (get_price_comparison np_sqrt self e symbol).2
       = [AlphaVantage_quote symbol; YahooFinance_history symbol]).
Proof.
  destruct (get_price_comparison_full np_sqrt self e symbol)
    as (self1 & alpha & calls_a & Halpha & -> & _).
  destruct (get_alpha_vantage_data_cases self (clock_fetch e) (alpha_vantage e) symbol)
    as [[Hin Heq] | [[Hout Heq] | [Hout (price & _ & Heq)]]];
    rewrite Heq in Halpha; injection Halpha as <- <- <-; split; done.
Qed.

(** X11. A cycle for a symbol touches the entry of no other symbol in
    [last_fetch_time].  On a cache hit it leaves the whole map as it was,
    so a hit does not prolong the twelve seconds; and a cycle that is no
    cache hit and does not return [(None, None, None)] has set the entry
    of its symbol to the time of its fetch. *)
Theorem last_fetch_time_updates (self : t) (e : env) (symbol : string) :
  (∀ other, other ≠ symbol →
     last_fetch_time (get_price_comparison np_sqrt self e symbol).1.1 !! other
     = last_fetch_time self !! other)
  ∧ (fetched_recently self (clock_fetch e) symbol →
       last_fetch_time (get_price_comparison np_sqrt self e symbol).1.1
       = last_fetch_time self)
  ∧ (¬ fetched_recently self (clock_fetch e) symbol →
       (get_price_comparison np_sqrt self e symbol).1.2 ≠ null_comparison →
       last_fetch_time (get_price_comparison np_sqrt self e symbol).1.1 !! symbol
       = Some (clock_fetch e)).
Proof.
  destruct (get_price_comparison_full np_sqrt self e symbol)
    as (self1 & alpha & calls_a & Halpha & _ & Hend).
  assert (Hmap : last_fetch_time (get_price_comparison np_sqrt self e symbol).1.1
                 = last_fetch_time self1).
  { destruct Hend as [-> | (a & y & _ & -> & _)]; done. }
  rewrite Hmap.
  destruct (get_alpha_vantage_data_cases self (clock_fetch e) (alpha_vantage e) symbol)
    as [[Hin Heq] | [[Hout Heq] | [Hout (price & _ & Heq)]]];
    rewrite Heq in Halpha; injection Halpha as <- <- <-; simpl.
  - split_and!; done.
  - split_and!; [done..|]. intros _ Hstored.
    destruct Hend as [Hnull | (a & y & Ha & _)]; [|done].
    by rewrite Hnull in Hstored.
  - split_and!.
    + intros other Hne. by rewrite lookup_insert_ne.
    + done.
    + intros _ _. by rewrite lookup_insert_eq.
Qed.

(** X12. On a cache hit the price of source A is that of the last row of
    the history, whatever the symbol of that row: a cycle that then
    stores a row stores it with that price. *)
Theorem cached_cycle_repeats_last_row
    (self : t) (e : env) (symbol : string) (r : ComparisonRecord) :
  fetched_recently self (clock_fetch e) symbol →
  last (price_history self) = Some r →
  (get_price_comparison np_sqrt self e symbol).1.2 ≠ null_comparison →
  ∃ row,
    last (price_history (get_price_comparison np_sqrt self e symbol).1.1) = Some row
    ∧ Symbol row = symbol
    ∧ Alpha_Vantage_Price row = Alpha_Vantage_Price r.
Proof.
  intros Hrecent Hlast Hstored.
  destruct (get_price_comparison_full np_sqrt self e symbol)
    as (self1 & alpha & calls_a & Halpha & _ & [Hnull | (a & y & Ha & Hstate & _)]).
  { by rewrite Hnull in Hstored. }
  rewrite get_alpha_vantage_data_cached in Halpha by done.
  injection Halpha as <- <- <-. rewrite Hlast in Ha. injection Ha as <-.
  rewrite Hstate. simpl. eexists. split; [apply store_last|done].
Qed.

End Outcomes.

Lemma requests_of_a_cycle_witness :
  fetched_recently after_xyz (seconds 5) "XYZ"
  ∧ (get_price_comparison newton_sqrt after_xyz (quotes 5 100 100.8) "XYZ").2
    = [YahooFinance_history "XYZ"].
Proof.
  assert (Hrecent : fetched_recently after_xyz (seconds 5) "XYZ").
  { exists (seconds 0). split; [by vm_compute|]. by vm_compute. }
  split; [exact Hrecent|].
  exact (proj1 (requests_of_a_cycle newton_sqrt after_xyz (quotes 5 100 100.8) "XYZ") Hrecent).
Defined.

Lemma last_fetch_time_updates_witness :
  fetched_recently after_xyz (seconds 5) "XYZ"
  ∧ last_fetch_time (get_price_comparison newton_sqrt after_xyz (quotes 5 100 100.8) "XYZ").1.1
    = last_fetch_time after_xyz.
Proof.
  assert (Hrecent : fetched_recently after_xyz (seconds 5) "XYZ").
  { exists (seconds 0). split; [by vm_compute|]. by vm_compute. }
  split; [exact Hrecent|].
  exact (proj1 (proj2 (last_fetch_time_updates newton_sqrt after_xyz
                         (quotes 5 100 100.8) "XYZ")) Hrecent).
Defined.

Lemma cached_cycle_repeats_last_row_witness :
  ∃ r row,
    last (price_history after_xyz_then_abc) = Some r
    ∧ Symbol r = "ABC"
    ∧ last (price_history
              (get_price_comparison newton_sqrt after_xyz_then_abc
                 (quotes 8 100 100.8) "XYZ").1.1) = Some row
    ∧ Symbol row = "XYZ"
    ∧ Alpha_Vantage_Price row = Alpha_Vantage_Price r.
Proof.
  assert (∃ r, last (price_history after_xyz_then_abc) = Some r ∧ Symbol r = "ABC")
    as (r & Hlast & Hsym) by (vm_compute; eexists; split; reflexivity).
  destruct (cached_cycle_repeats_last_row newton_sqrt after_xyz_then_abc
              (quotes 8 100 100.8) "XYZ" r) as (row & Hrow & Hxyz & Hprice).
  - exists (seconds 0). split; [by vm_compute|]. by vm_compute.
  - exact Hlast.
  - vm_compute. discriminate.
  - exists r, row. by split_and!.
Defined.

(** ** What a sequence of cycles keeps *)

Section Runs.
Variable np_sqrt : Q → Q.

Lemma store_elem_of (history : list ComparisonRecord) (r x : ComparisonRecord) :
  x ∈ store history r → x ∈ history ∨ x = r.
Proof.
  unfold store. intros Hx.
  assert (x ∈ history ++ [r]) as Hin.
  { destruct (1000 <? length (history ++ [r]))%nat; [by apply tail_elem_of in Hx|done]. }
  apply elem_of_app in Hin as [Hin | Hin%list_elem_of_singleton]; [by left|by right].
Qed.

Lemma run_keeps (P : t → Prop) :
  (∀ self c, P self → P (cycle np_sqrt self c)) →
  ∀ cycles self, P self → P (run np_sqrt self cycles).
Proof.
  intros Hstep cycles. induction cycles as [|c cycles IH]; intros self HP; [done|].
  simpl. apply IH. by apply Hstep.
Qed.

Lemma cycle_keeps_rows (self : t) (c : env * string) :
  rows_consistent self ∧ rows_fetched self →
  rows_consistent (cycle np_sqrt self c) ∧ rows_fetched (cycle np_sqrt self c).
Proof.
  intros [Hcons Hfetched]. unfold cycle. destruct c as [e symbol]. simpl.
  destruct (get_price_comparison_full np_sqrt self e symbol)
    as (self1 & alpha & calls_a & Halpha & _ & Hend).
  assert (Hself1 :
    price_history self1 = price_history self
    ∧ (∀ s, is_Some (last_fetch_time self !! s) → is_Some (last_fetch_time self1 !! s))
    ∧ (is_Some alpha → is_Some (last_fetch_time self1 !! symbol))).
  { destruct (get_alpha_vantage_data_cases self (clock_fetch e) (alpha_vantage e) symbol)
      as [[Hin Heq] | [[Hout Heq] | [Hout (price & _ & Heq)]]];
      rewrite Heq in Halpha; injection Halpha as <- <- <-; simpl.
    - split_and!; [done..|]. intros _. destruct Hin as (t0 & Hlast & _).
      by exists t0.
    - split_and!; [done..|]. by intros [? ?].
    - split_and!; [done| |].
      + intros s Hs. destruct (decide (symbol = s)) as [<- | Hne].
        * rewrite lookup_insert_eq. by eexists.
        * by rewrite lookup_insert_ne.
      + intros _. rewrite lookup_insert_eq. by eexists. }
  destruct Hself1 as (Hhist & Hold & Hnew).
  destruct Hend as [-> | (a & y & Ha & -> & _)]; simpl.
  - split.
    + intros r Hr. apply Hcons. by rewrite <- Hhist.
    + intros r Hr. apply Hold, Hfetched. by rewrite <- Hhist.
  - split.
    + intros r [Hr | ->]%store_elem_of; [by apply Hcons|done].
    + intros r [Hr | ->]%store_elem_of; [by apply Hold, Hfetched|].
      simpl. apply Hnew. by rewrite Ha.
Qed.

(** X13. Whatever cycles a fresh [DataFetcher] goes through, every row of
    its history holds the discrepancy of its own two prices,
    [|A - B| / A * 100], and the symbol of every row has an entry in
    [last_fetch_time]. *)
Theorem history_rows_consistent (cycles : list (env * string)) :
  rows_consistent (run np_sqrt init cycles) ∧ rows_fetched (run np_sqrt init cycles).
Proof.
  apply (run_keeps (λ self, rows_consistent self ∧ rows_fetched self)).
  - apply cycle_keeps_rows.
  - split; intros r Hr; by apply elem_of_nil in Hr.
Qed.

Lemma ordered_store (history : list ComparisonRecord) (r : ComparisonRecord)
    (now : datetime) :
  timestamps_ordered {| price_history := history; last_fetch_time := ∅ |} now →
  (now ≤ Timestamp r)%Z →
  timestamps_ordered {| price_history := store history r; last_fetch_time := ∅ |}
    (Timestamp r).
Proof.
  intros [Hord Hbound] Hnow. simpl in *.
  assert (Hsnoc : ∀ (i j : nat) r1 r2, (i ≤ j)%nat →
            (history ++ [r]) !! i = Some r1 → (history ++ [r]) !! j = Some r2 →
            (Timestamp r1 ≤ Timestamp r2)%Z).
  { intros i j r1 r2 Hij Hi Hj.
    apply lookup_app_Some in Hi as [Hi | [Hli Hi]];
      apply lookup_app_Some in Hj as [Hj | [Hlj Hj]].
    - by apply (Hord i j).
    - apply list_lookup_singleton_Some in Hj as [_ <-].
      apply list_elem_of_lookup_2 in Hi. specialize (Hbound r1 Hi). lia.
    - apply lookup_lt_Some in Hj. lia.
    - apply list_lookup_singleton_Some in Hi as [_ <-].
      apply list_lookup_singleton_Some in Hj as [_ <-]. lia. }
  split; simpl.
  - unfold store. destruct (1000 <? length (history ++ [r]))%nat; [|done].
    unfold tail. intros i j r1 r2 Hij Hi Hj.
    rewrite lookup_drop in Hi, Hj.
    eapply Hsnoc; [|exact Hi|exact Hj]. lia.
  - intros x [Hx | ->]%store_elem_of; [|lia]. specialize (Hbound x Hx). lia.
Qed.

Lemma timestamps_ordered_history (self self' : t) (now : datetime) :
  price_history self' = price_history self →
  timestamps_ordered self now → timestamps_ordered self' now.
Proof. unfold timestamps_ordered. by intros ->. Qed.

Lemma cycle_keeps_order (self : t) (c : env * string) (now : datetime) :
  timestamps_ordered self now → (now ≤ clock_record c.1)%Z →
  timestamps_ordered (cycle np_sqrt self c) (clock_record c.1).
Proof.
  intros Hord Hnow. unfold cycle. destruct c as [e symbol]. simpl in *.
  destruct (get_price_comparison_cases np_sqrt self e symbol)
    as [[_ Hsame] | [_ (a & y & Hstored)]].
  - apply (timestamps_ordered_history self _ _ Hsame).
    destruct Hord as [Hord Hbound]. split; [done|].
    intros r Hr. specialize (Hbound r Hr). lia.
  - lazymatch type of Hstored with
    | _ = store _ ?row =>
        apply (timestamps_ordered_history
                 {| price_history := store (price_history self) row;
                    last_fetch_time := ∅ |}); [by rewrite Hstored|];
        apply (ordered_store (price_history self) row now); [|done]
    end.
    by apply (timestamps_ordered_history self).
Qed.

Lemma run_keeps_order (cycles : list (env * string)) : ∀ (self : t) (start : datetime),
  timestamps_ordered self start → clock_monotone start cycles →
  timestamps_ordered (run np_sqrt self cycles) (final_clock start cycles).
Proof.
  induction cycles as [|c cycles IH]; intros self start Hord Hclock; [done|].
  destruct Hclock as [Hc Hcs]. simpl.
  apply IH; [|done]. by apply cycle_keeps_order with start.
Qed.

(** X14. When the clock never runs backwards from one cycle to the next,
    the history of a fresh [DataFetcher] stays in the order of its
    timestamps through any sequence of cycles, the cut to 1000 rows
    included, and no row is later than the last reading of the clock. *)
Theorem history_in_time_order (start : datetime) (cycles : list (env * string)) :
  clock_monotone start cycles →
  timestamps_ordered (run np_sqrt init cycles) (final_clock start cycles).
Proof.
  intros Hclock. apply run_keeps_order; [|done]. split.
  - intros i j r1 r2 _ Hi. simpl in Hi. by rewrite lookup_nil in Hi.
  - intros r Hr. by apply elem_of_nil in Hr.
Qed.

(** ** The summary *)

(** X15. For a symbol without rows [get_analytics_summary] reports zero
    comparisons and nothing else.  For a symbol with rows it reports
    their number, the mean of their discrepancies as pandas computes it,
    a minimum and a maximum that are discrepancies of rows of the symbol
    and bound all of them; the trend is missing exactly when there is a
    single row. *)
Theorem analytics_summary_spec
    (pd_mean : list Q → option Q) (self : t) (symbol : string) :
  (symbol_rows self symbol = [] →
     get_analytics_summary np_sqrt pd_mean self symbol
     = {| total_comparisons := 0; avg_difference := None; max_difference := None;
          min_difference := None; current_trend := None |})
  ∧ (symbol_rows self symbol ≠ [] →
       total_comparisons (get_analytics_summary np_sqrt pd_mean self symbol)
       = length (symbol_rows self symbol)
       ∧ avg_difference (get_analytics_summary np_sqrt pd_mean self symbol)
         = pd_mean (Difference <$> symbol_rows self symbol)
       ∧ (∃ low high,
            min_difference (get_analytics_summary np_sqrt pd_mean self symbol) = Some low
            ∧ max_difference (get_analytics_summary np_sqrt pd_mean self symbol) = Some high
            ∧ (∃ r, r ∈ symbol_rows self symbol ∧ Difference r = low)
            ∧ (∃ r, r ∈ symbol_rows self symbol ∧ Difference r = high)
            ∧ (∀ r, r ∈ symbol_rows self symbol →
                 low <= Difference r ∧ Difference r <= high))
       ∧ (current_trend (get_analytics_summary np_sqrt pd_mean self symbol) = None
          ↔ length (symbol_rows self symbol) = 1%nat)).
Proof.
  unfold get_analytics_summary. split.
  - by intros ->.
  - intros Hne.
    destruct (symbol_rows self symbol) as [|r0 rows] eqn:Hrows; [done|].
    cbn [empty total_comparisons avg_difference max_difference min_difference
         current_trend].
    split; [done|]. split; [done|]. split.
    + set (s := Difference <$> r0 :: rows).
      assert (∃ high, series_max s = Some high) as [high Hhigh] by (by eexists).
      assert (∃ low, series_min s = Some low) as [low Hlow] by (by eexists).
      pose proof (series_max_upper s high Hhigh) as Hupper.
      pose proof (series_min_lower s low Hlow) as Hlower.
      exists low, high. split_and!; try done.
      * apply series_min_elem in Hlow.
        apply list_elem_of_fmap in Hlow as (r & -> & Hr). by exists r.
      * apply series_max_elem in Hhigh.
        apply list_elem_of_fmap in Hhigh as (r & -> & Hr). by exists r.
      * intros r Hr. rewrite Forall_forall in Hupper, Hlower.
        assert (Difference r ∈ s) by (apply list_elem_of_fmap; by exists r).
        split; [by apply Hlower|by apply Hupper].
    + destruct (analytics_present np_sqrt self symbol)
        as [(Hfew & _ & _ & ->) | (Hlen & _ & _ & [tr ->])];
        rewrite Hrows in *; simpl in *.
      * split; [intros _; lia|done].
      * split; [done|]. intros Hone. lia.
Qed.

End Runs.

Lemma history_in_time_order_witness :
  clock_monotone 0%Z
    [(quotes 0 100 100.8, "XYZ"); (quotes 20 100 100.8, "XYZ"); (quotes 40 100 101, "XYZ")]
  ∧ timestamps_ordered
      (run newton_sqrt init
         [(quotes 0 100 100.8, "XYZ"); (quotes 20 100 100.8, "XYZ");
          (quotes 40 100 101, "XYZ")])
      (seconds 40).
Proof.
  assert (Hclock : clock_monotone 0%Z
    [(quotes 0 100 100.8, "XYZ"); (quotes 20 100 100.8, "XYZ");
     (quotes 40 100 101, "XYZ")]).
  { simpl. unfold seconds. lia. }
  split; [exact Hclock|].
  exact (history_in_time_order newton_sqrt 0%Z _ Hclock).
Defined.

End DataFetcherMore.

(** * Properties of the dashboard's metrics and loop *)

Module DashboardFacts.
Import Time Pandas PandasFacts PandasAggregatesFacts DataFetcher DataFetcherFacts.
Import DataFetcherMore Dashboard.
Local Open Scope Q_scope.

(** ** The window of response times *)

Lemma tail_snoc_tail {A} (n : nat) (l : list A) (x : A) :
  (0 < n)%nat → tail n (tail n l ++ [x]) = tail n (l ++ [x]).
Proof.
  intros Hn. destruct (decide (length l ≤ n)%nat) as [Hle|Hgt].
  { by rewrite (tail_all n l). }
  rewrite (tail_snoc_full n (tail n l) x) by (try rewrite tail_length; lia).
  unfold tail. rewrite drop_drop, length_app. simpl.
  rewrite drop_app_le by lia. do 2 f_equal. lia.
Qed.

Lemma add_response_time_tail (self : PerformanceMetrics) (d : Q) :
  (length (api_response_times self) ≤ 100)%nat →
  api_response_times (add_response_time self d)
  = tail 100 (api_response_times self ++ [d]).
Proof.
  intros Hlen. unfold add_response_time. simpl.
  destruct (100 <? length (api_response_times self ++ [d]))%nat eqn:Hfull.
  - apply Nat.ltb_lt in Hfull. rewrite length_app in Hfull. simpl in Hfull.
    unfold tail. f_equal. rewrite length_app. simpl. lia.
  - apply Nat.ltb_ge in Hfull. by rewrite tail_all.
Qed.

Lemma tail_app_tail {A} (n : nat) (l k : list A) :
  (0 < n)%nat → tail n (tail n l ++ k) = tail n (l ++ k).
Proof.
  intros Hn. induction k as [|x k IH] using rev_ind.
  - rewrite !app_nil_r. apply tail_all. rewrite tail_length. lia.
  - rewrite !app_assoc.
    rewrite <- (tail_snoc_tail n (tail n l ++ k)), <- (tail_snoc_tail n (l ++ k)) by done.
    by rewrite IH.
Qed.

Lemma add_response_times_window (ds : list Q) : ∀ self,
  (length (api_response_times self) ≤ 100)%nat →
  api_response_times (foldl add_response_time self ds)
  = tail 100 (api_response_times self ++ ds)
  ∧ error_counts (foldl add_response_time self ds) = error_counts self.
Proof.
  induction ds as [|d ds IH]; intros self Hlen.
  - simpl. rewrite app_nil_r. by rewrite tail_all.
  - simpl. pose proof (add_response_time_tail self d Hlen) as Hstep.
    destruct (IH (add_response_time self d)) as [-> ->].
    { rewrite Hstep, tail_length. lia. }
    rewrite Hstep. split; [|done].
    rewrite tail_app_tail by lia. by rewrite <- app_assoc.
Qed.

(** X16. However many response times are added to fresh metrics, the
    list kept is the last hundred of them in the order of arrival (all
    of them while there are at most a hundred), and adding a time never
    touches the error counts. *)
Theorem response_times_window (ds : list Q) :
  api_response_times (foldl add_response_time new_metrics ds) = tail 100 ds
  ∧ (length (api_response_times (foldl add_response_time new_metrics ds)) ≤ 100)%nat
  ∧ error_counts (foldl add_response_time new_metrics ds) = error_counts new_metrics.
Proof.
  destruct (add_response_times_window ds new_metrics) as [Htimes Hcounts].
  { simpl. lia. }
  rewrite Htimes, Hcounts. simpl. split_and!; [done| |done].
  rewrite tail_length. lia.
Qed.

(** ** The loop *)

Lemma increment_both (self : PerformanceMetrics) (n : nat) :
  error_counts self = both_counts n →
  ∃ self1 self2,
    increment_error self "alpha_vantage" = Returned self1
    ∧ increment_error self1 "yahoo_finance" = Returned self2
    ∧ error_counts self2 = both_counts (S n)
    ∧ api_response_times self2 = api_response_times self.
Proof.
  intros Hcounts. unfold increment_error. rewrite Hcounts.
  unfold both_counts at 1. rewrite lookup_insert_eq.
  eexists _, _. split; [done|]. simpl.
  unfold both_counts at 1.
  rewrite lookup_insert_ne, lookup_insert_ne, lookup_insert_eq by done.
  split; [done|]. simpl. split; [|done].
  unfold both_counts. apply map_eq. intros k.
  destruct (decide (k = "alpha_vantage")) as [-> | Ha];
    [by rewrite lookup_insert_ne, !lookup_insert_eq by done|].
  destruct (decide (k = "yahoo_finance")) as [-> | Hy].
  - by rewrite lookup_insert_eq, lookup_insert_ne, lookup_insert_eq by done.
  - by rewrite !lookup_insert_ne by done.
Qed.

Section Loop.
Variable np_sqrt : Q → Q.

(** What a pass does to the metrics and to the fetcher. *)
Lemma loop_pass_metrics (c : components) (p : pass) (symbol : string)
    (n : nat) (times : list Q) :
  error_counts (metrics c) = both_counts n →
  api_response_times (metrics c) = tail 100 times →
  error_counts (metrics (loop_pass np_sqrt c p symbol))
  = both_counts
      (n + (if is_null (get_price_comparison np_sqrt (data_fetcher c)
                          (fetch_env p) symbol).1.2
            then 1 else 0))
  ∧ api_response_times (metrics (loop_pass np_sqrt c p symbol))
    = tail 100
        (times ++ (if has_returned (get_price_comparison np_sqrt (data_fetcher c)
                                      (fetch_env p) symbol).1.2
                   then [duration p] else [])).
Proof.
  intros Hcounts Htimes.
  assert (Hadd :
    api_response_times (add_response_time (metrics c) (duration p))
    = tail 100 (times ++ [duration p])
    ∧ error_counts (add_response_time (metrics c) (duration p)) = both_counts n).
  { split; [|done]. rewrite add_response_time_tail.
    - rewrite Htimes. apply tail_app_tail. lia.
    - rewrite Htimes, tail_length. lia. }
  destruct Hadd as [Hadd_times Hadd_counts].
  unfold loop_pass.
  remember (add_response_time (metrics c) (duration p)) as added eqn:Hadded.
  clear Hadded.
  destruct (get_price_comparison_full np_sqrt (data_fetcher c) (fetch_env p) symbol)
    as (self1 & alpha & calls_a & _ & _ & Hend).
  destruct (get_price_comparison np_sqrt (data_fetcher c) (fetch_env p) symbol)
    as [[fetcher result] calls]. simpl in Hend. simpl is_null. simpl has_returned.
  destruct Hend as [[= -> ->] | (a & y & _ & _ & ->)].
  - unfold null_comparison. cbn [is_null has_returned].
    destruct (increment_both added n Hadd_counts) as (m1 & m2 & Hm1 & Hm2 & Hc & Ht).
    rewrite Hm1, Hm2. cbn [metrics]. rewrite Hc, Ht, Hadd_times.
    split; [f_equal; lia|done].
  - case_decide; cbn [is_null has_returned metrics].
    + rewrite Hcounts, Htimes, app_nil_r, Nat.add_0_r. done.
    + destruct (AlertSystem.should_send_alert (alert_system c)
                  (Qabs (a - y) / a * 100)); cbn [metrics];
        rewrite Hadd_times, Hadd_counts, Nat.add_0_r; done.
Qed.

Lemma loop_metrics (symbol : string) (passes : list pass) :
  ∀ (c : components) (n : nat) (times : list Q),
    error_counts (metrics c) = both_counts n →
    api_response_times (metrics c) = tail 100 times →
    error_counts (metrics (loop np_sqrt c symbol passes))
    = both_counts (n + count_failed (loop_outcomes np_sqrt c symbol passes))
    ∧ api_response_times (metrics (loop np_sqrt c symbol passes))
      = tail 100 (times ++ recorded (loop_outcomes np_sqrt c symbol passes)).
Proof.
  induction passes as [|p passes IH]; intros c n times Hcounts Htimes.
  - simpl. unfold count_failed, recorded. simpl.
    by rewrite Nat.add_0_r, app_nil_r.
  - destruct (loop_pass_metrics c p symbol n times Hcounts Htimes) as [Hc Ht].
    simpl. destruct (IH _ _ _ Hc Ht) as [-> ->].
    unfold count_failed, recorded.
    destruct (is_null (get_price_comparison np_sqrt (data_fetcher c)
                         (fetch_env p) symbol).1.2) eqn:Hnull;
      destruct (has_returned (get_price_comparison np_sqrt (data_fetcher c)
                                (fetch_env p) symbol).1.2) eqn:Hret.
    + rewrite filter_cons_True, (filter_cons_True (λ e, has_returned e.2 = true)) by done.
      simpl. split; [f_equal; lia|by rewrite <- app_assoc].
    + rewrite filter_cons_True, (filter_cons_False (λ e, has_returned e.2 = true))
        by (simpl; congruence).
      simpl. split; [f_equal; lia|by rewrite app_nil_r].
    + rewrite filter_cons_False, (filter_cons_True (λ e, has_returned e.2 = true))
        by (simpl; congruence).
      simpl. split; [f_equal; lia|by rewrite <- app_assoc].
    + rewrite filter_cons_False, (filter_cons_False (λ e, has_returned e.2 = true))
        by (simpl; congruence).
      simpl. split; [f_equal; lia|by rewrite app_nil_r].
Qed.

(** X18. Through any number of passes of the loop of a fresh dashboard
    the error counts of the two sources are the same number, the number
    of passes in which the comparison came back as [(None, None, None)]:
    such a pass counts an error for both sources, whichever of them
    failed.  The two error rates are therefore always equal.  The
    response times kept are the last hundred of the passes in which the
    comparison came back at all; a pass in which it raised records
    none. *)
Theorem loop_counts_both_sources (threshold : Q) (symbol : string) (passes : list pass) :
  errors_of (metrics (loop np_sqrt (new_components threshold) symbol passes))
    "alpha_vantage"
  = count_failed (loop_outcomes np_sqrt (new_components threshold) symbol passes)
  ∧ errors_of (metrics (loop np_sqrt (new_components threshold) symbol passes))
      "yahoo_finance"
    = count_failed (loop_outcomes np_sqrt (new_components threshold) symbol passes)
  ∧ dom (error_counts (metrics (loop np_sqrt (new_components threshold) symbol passes)))
    = {["alpha_vantage"; "yahoo_finance"]}
  ∧ get_error_rates (metrics (loop np_sqrt (new_components threshold) symbol passes))
      !! "alpha_vantage"
    = get_error_rates (metrics (loop np_sqrt (new_components threshold) symbol passes))
        !! "yahoo_finance"
  ∧ api_response_times (metrics (loop np_sqrt (new_components threshold) symbol passes))
    = tail 100 (recorded (loop_outcomes np_sqrt (new_components threshold) symbol passes)).
Proof.
  pose proof (loop_metrics symbol passes (new_components threshold) 0 []
                eq_refl eq_refl) as [Hcounts Htimes].
  simpl in Hcounts, Htimes.
  unfold errors_of, get_error_rates. rewrite !lookup_fmap, Hcounts, Htimes.
  unfold both_counts.
  rewrite lookup_insert_eq, lookup_insert_ne, lookup_insert_eq by done.
  split_and!; done.
Qed.

End Loop.

(** A hundred and one passes with both providers down: the error rate of
    each source is 101 percent. *)
Example error_rate_above_hundred :
  (λ rate, Qeq_bool rate 101)
    <$> get_error_rates
          (metrics (loop newton_sqrt (new_components 0.5) "XYZ" (replicate 101 failing_pass)))
        !! "alpha_vantage"
  = Some true.
Proof. vm_compute. reflexivity. Qed.

End DashboardFacts.
